(** * DefaultBowlerComs: frame dispatcher and alternating-bit receiver

    A shallow embedding of [include/defaultBowlerComs.hpp].  The class
    [DefaultBowlerComs<N>] owns a transport ([server]), a registry of packet
    handlers ([packets]), the per-identifier state of the reliable transport
    ([reliableState]) and a queue of deferred handler constructors
    ([ensuredPackets]).  Its member functions are embedded as computations in
    a state monad over these fields.

    The transport ([BowlerServer<N>]) and the handlers ([Packet]) are abstract
    interfaces in the source; they are type classes here.  Calls through them,
    and the [BOWLER_LOG] diagnostics, are recorded in a chronological [trace],
    so that "the handler ran once", "the frame was written" and "nothing was
    written" are statements about the trace. *)

From stdpp Require Import base option list gmap sorting.
From Stdlib Require Import ZArith Lia.

Local Open Scope Z_scope.

(** ** Constants *)

(** Modelled from the spec: [HEADER_LENGTH] is declared in
    [bowlerDeviceServerUtil.hpp], which is not part of the sources at hand.
    The buffer format documented on the class (identifier, sequence number,
    acknowledgment number, each one byte, then the payload) and the frame
    table of the specification (payload at offsets 3..N-1) fix it to three. *)
Definition HEADER_LENGTH : nat := 3.

(** The [errno] values the class stores or compares with (the usual POSIX
    numbering; [EWOULDBLOCK] is [EAGAIN]). *)
Definition EINVAL : Z := 22.
Definition ENODEV : Z := 19.
Definition EWOULDBLOCK : Z := 11.

(** ** Interfaces *)

(** [enum states_t { waitForZero, waitForOne }]: the state of one reliable
    channel.  [waitForZero] is the enumerator with value zero, hence what
    [std::map::operator[]] creates for a missing key. *)
Inductive states_t : Type := waitForZero | waitForOne.

Global Instance states_t_eq_dec : EqDecision states_t.
Proof. solve_decision. Defined.

(** The [Packet] interface.  A handler object may carry state of its own, so
    [event] returns the object after the call; it also sees and may set
    [errno].  A handler is taken not to call back into the object that
    dispatches to it (the server management handler is given a pointer to it
    by the constructor, and its class is not part of the sources at hand):
    what is proved about a call of [event] concerns the dispatcher's own
    steps around it.  The payload is the part of the buffer from [HEADER_LENGTH] on,
    rewritten in place: [event] is given the payload and returns it as the
    handler left it.  The result is the [std::int32_t] the handler
    returns. *)
Class Packet (P : Type) : Type := {
  getId : P -> Z;
  isReliable : P -> bool;
  event : P -> Z -> list Z -> P * Z * list Z * Z
}.

(** The [BowlerServer<N>] interface.  Every call takes the transport and
    [errno] and returns both, followed by the [std::int32_t] result and, for
    [isDataAvailable] and [read], the value stored through the reference
    argument. *)
Class BowlerServer (S : Type) : Type := {
  isDataAvailable : S -> Z -> S * Z * Z * bool;
  read : S -> Z -> S * Z * Z * list Z;
  write : S -> Z -> list Z -> S * Z * Z
}.

(** Diagnostics printed through [BOWLER_LOG] (a macro of another header;
    printing is an effect of the trace here), each with the [errno] it
    prints where the format string has one. *)
Inductive LogMsg : Type :=
| LogNotFound (id : Z)
| LogReplyError (e : Z)
| LogReadError (e : Z)
| LogPeekError (e : Z)
| LogEventError (e : Z)
| LogWriteError (e : Z).

(** What the class does to the outside, in order. *)
Inductive Effect : Type :=
| CallIsDataAvailable
| CallRead
| CallWrite (frame : list Z)
| CallEvent (id : Z) (payload : list Z)
| CallFactory (i : nat)
| Log (m : LogMsg).

(** ** Buffer accessors *)

(** A buffer is a [std::array<std::uint8_t, N>] with [N >= HEADER_LENGTH + 1]
    (the [static_assert] of the class), so [at(0)], [at(1)] and [at(2)] never
    throw; the default of [nth] and the out-of-range case of the list update
    are never reached on a buffer of that length. *)

Definition getPacketId (idata : list Z) : Z := nth 0 idata 0.
Definition getSeqNum (idata : list Z) : Z := nth 1 idata 0.
Definition getAckNum (idata : list Z) : Z := nth 2 idata 0.
Definition setSeqNum (idata : list Z) (iseqNum : Z) : list Z := <[1%nat := iseqNum]> idata.
Definition setAckNum (idata : list Z) (iackNum : Z) : list Z := <[2%nat := iackNum]> idata.

(** [std::fill(std::next(idata.begin(), HEADER_LENGTH), idata.end(), 0)]. *)
Definition clearPayload (idata : list Z) : list Z :=
  take HEADER_LENGTH idata ++ replicate (length idata - HEADER_LENGTH) 0.

(** The buffer after a handler rewrote the payload behind the header. *)
Definition withPayload (idata payload : list Z) : list Z :=
  take HEADER_LENGTH idata ++ payload.

(** ** Reading a trace *)

(** The handler invocations of a trace: identifier and payload handed over. *)
Definition events_of (tr : list Effect) : list (Z * list Z) :=
  omap (fun e => match e with CallEvent id payload => Some (id, payload) | _ => None end) tr.

(** The frames handed to the transport's [write]. *)
Definition writes_of (tr : list Effect) : list (list Z) :=
  omap (fun e => match e with CallWrite frame => Some frame | _ => None end) tr.

(** The queue positions of the factories that were run. *)
Definition factories_of (tr : list Effect) : list nat :=
  omap (fun e => match e with CallFactory i => Some i | _ => None end) tr.

(** The diagnostics. *)
Definition logs_of (tr : list Effect) : list LogMsg :=
  omap (fun e => match e with Log m => Some m | _ => None end) tr.

(** A diagnostic that is printed only under a condition. *)
Definition log_if (b : bool) (m : LogMsg) : list Effect := if b then [Log m] else [].

Section Coms.
Context {Pkt Srv : Type} {PktOps : Packet Pkt} {SrvOps : BowlerServer Srv}.

(** [BOWLER_ERROR] and [SERVER_MANAGEMENT_PACKET_ID] are declared in
    headers that are not part of the sources at hand; they are parameters
    of the development. *)
Variable BOWLER_ERROR : Z.
Variable SERVER_MANAGEMENT_PACKET_ID : Z.

(** ** The object state *)

Record Coms : Type := mkComs {
  server : Srv;
  packets : gmap Z Pkt;
  reliableState : gmap Z states_t;
  ensuredPackets : list (unit -> Pkt);
  errno : Z;
  trace : list Effect
}.

Definition set_server (s : Srv) (c : Coms) : Coms :=
  mkComs s (packets c) (reliableState c) (ensuredPackets c) (errno c) (trace c).
Definition set_packets (m : gmap Z Pkt) (c : Coms) : Coms :=
  mkComs (server c) m (reliableState c) (ensuredPackets c) (errno c) (trace c).
Definition set_reliableState (m : gmap Z states_t) (c : Coms) : Coms :=
  mkComs (server c) (packets c) m (ensuredPackets c) (errno c) (trace c).
Definition set_ensuredPackets (l : list (unit -> Pkt)) (c : Coms) : Coms :=
  mkComs (server c) (packets c) (reliableState c) l (errno c) (trace c).
Definition set_errno (e : Z) (c : Coms) : Coms :=
  mkComs (server c) (packets c) (reliableState c) (ensuredPackets c) e (trace c).
Definition emit (e : Effect) (c : Coms) : Coms :=
  mkComs (server c) (packets c) (reliableState c) (ensuredPackets c) (errno c)
         (trace c ++ [e]).

(** ** The state monad of member functions *)

Definition M (A : Type) : Type := Coms -> A * Coms.

Definition ret {A} (a : A) : M A := fun c => (a, c).
Definition bind {A B} (m : M A) (k : A -> M B) : M B :=
  fun c => let (a, c') := m c in k a c'.
Definition modify (f : Coms -> Coms) : M unit := fun c => (tt, f c).
Definition gets {A} (f : Coms -> A) : M A := fun c => (f c, c).

Notation "x <- m ; k" := (bind m (fun x => k))
  (at level 20, m at level 100, k at level 200, only parsing).
Notation "' pat <- m ; k" := (bind m (fun x => let 'pat := x in k))
  (at level 20, pat pattern, m at level 100, k at level 200, only parsing).
Notation "m >> k" := (bind m (fun _ => k))
  (at level 100, k at level 200, only parsing, right associativity).

Definition when (b : bool) (m : M unit) : M unit := if b then m else ret tt.

(** [BOWLER_LOG(...)] with a format that prints [errno]. *)
Definition logErrno (mk : Z -> LogMsg) : M unit :=
  e <- gets errno ; modify (emit (Log (mk e))).

(** ** Calls through the interfaces *)

Definition server_isDataAvailable : M (Z * bool) := fun c =>
  let '(s, e, r, b) := isDataAvailable (server c) (errno c) in
  ((r, b), emit CallIsDataAvailable (set_errno e (set_server s c))).

Definition server_read : M (Z * list Z) := fun c =>
  let '(s, e, r, d) := read (server c) (errno c) in
  ((r, d), emit CallRead (set_errno e (set_server s c))).

Definition server_write (idata : list Z) : M Z := fun c =>
  let '(s, e, r) := write (server c) (errno c) idata in
  (r, emit (CallWrite idata) (set_errno e (set_server s c))).

(** [ipacket->second->event(idata.data() + HEADER_LENGTH)]: the handler
    behind the iterator runs on the payload; the registry keeps pointing to
    the same object, whose state the call may have changed.  The result is
    the buffer with the rewritten payload and the handler's return value. *)
Definition packet_event (ipacket : Z * Pkt) (idata : list Z) : M (list Z * Z) := fun c =>
  let payload := drop HEADER_LENGTH idata in
  let '(p, e, payload', r) := event (snd ipacket) (errno c) payload in
  ((withPayload idata payload', r),
   emit (CallEvent (fst ipacket) payload)
        (set_errno e (set_packets (<[fst ipacket := p]> (packets c)) c))).

(** [reliableState[id]]: a missing key is created with the zero
    enumerator. *)
Definition reliableState_at (id : Z) : M states_t := fun c =>
  match reliableState c !! id with
  | Some st => (st, c)
  | None => (waitForZero, set_reliableState (<[id := waitForZero]> (reliableState c)) c)
  end.

(** [state = st] through the reference obtained from [reliableState[id]]. *)
Definition assign_state (id : Z) (st : states_t) : M unit :=
  modify (fun c => set_reliableState (<[id := st]> (reliableState c)) c).

(** ** Registration *)

Definition addEnsuredPacket (iaddPacket : unit -> Pkt) : M unit :=
  modify (fun c => set_ensuredPackets (ensuredPackets c ++ [iaddPacket]) c).

Definition addPacket (ipacket : Pkt) : M Z := fun c =>
  match packets c !! getId ipacket with
  | None =>
      let c1 := if isReliable ipacket
                then set_reliableState
                       (<[getId ipacket := waitForZero]> (reliableState c)) c
                else c in
      (1, set_packets (<[getId ipacket := ipacket]> (packets c1)) c1)
  | Some _ => (BOWLER_ERROR, set_errno EINVAL c)
  end.

(** The [for] loop of [addEnsuredPackets], from queue position [i] on. *)
Fixpoint addEnsuredPackets_from (i : nat) (elems : list (unit -> Pkt)) : M Z :=
  match elems with
  | [] => ret 1
  | elem :: rest =>
      modify (emit (CallFactory i)) >>
      r <- addPacket (elem tt) ;
      if r =? BOWLER_ERROR then ret BOWLER_ERROR
      else addEnsuredPackets_from (S i) rest
  end.

Definition addEnsuredPackets : M Z :=
  elems <- gets ensuredPackets ; addEnsuredPackets_from 0 elems.

Definition removePacket (iid : Z) : M unit :=
  modify (fun c => set_packets (delete iid (packets c)) c).

(** *** Describing what a drain registers *)

(** The identifier of the handler a factory builds. *)
Definition factory_id (elem : unit -> Pkt) : Z := getId (elem tt).

(** The registry after the handlers of [elems] were stored one after the
    other, and the state table after the reliable ones were initialised. *)
Definition stored_all (elems : list (unit -> Pkt)) (m : gmap Z Pkt) : gmap Z Pkt :=
  foldl (fun m elem => <[factory_id elem := elem tt]> m) m elems.

Definition initialised_all (elems : list (unit -> Pkt)) (m : gmap Z states_t)
    : gmap Z states_t :=
  foldl (fun m elem => if isReliable (elem tt)
                       then <[factory_id elem := waitForZero]> m else m) m elems.

(** ** Dispatch *)

Definition handlePacketUnreliable (ipacket : Z * Pkt) (idata : list Z) : M (list Z) :=
  '(idata1, error) <- packet_event ipacket idata ;
  when (error =? BOWLER_ERROR) (logErrno LogEventError) >>
  error <- server_write idata1 ;
  when (error =? BOWLER_ERROR) (logErrno LogWriteError) >>
  ret idata1.

Definition handlePacketReliable (ipacket : Z * Pkt) (idata : list Z) : M (list Z) :=
  state <- reliableState_at (fst ipacket) ;
  match state with
  | waitForZero =>
      if getSeqNum idata =? 0 then
        '(idata1, eventError) <- packet_event ipacket idata ;
        when (eventError =? BOWLER_ERROR) (logErrno LogEventError) >>
        let idata2 := setAckNum idata1 0 in
        error <- server_write idata2 ;
        when (error =? BOWLER_ERROR) (logErrno LogWriteError) >>
        (if (fst ipacket =? SERVER_MANAGEMENT_PACKET_ID) && (eventError =? 2)
         then assign_state (fst ipacket) waitForZero
         else assign_state (fst ipacket) waitForOne) >>
        ret idata2
      else
        let idata1 := setAckNum (clearPayload idata) 1 in
        error <- server_write idata1 ;
        when (error =? BOWLER_ERROR) (logErrno LogWriteError) >>
        ret idata1
  | waitForOne =>
      if getSeqNum idata =? 1 then
        '(idata1, error) <- packet_event ipacket idata ;
        when (error =? BOWLER_ERROR) (logErrno LogEventError) >>
        let idata2 := setAckNum idata1 1 in
        error <- server_write idata2 ;
        when (error =? BOWLER_ERROR) (logErrno LogWriteError) >>
        assign_state (fst ipacket) waitForZero >>
        ret idata2
      else
        let idata1 := setAckNum (clearPayload idata) 0 in
        error <- server_write idata1 ;
        when (error =? BOWLER_ERROR) (logErrno LogWriteError) >>
        ret idata1
  end.

Definition loop : M Z :=
  '(error, available) <- server_isDataAvailable ;
  if negb (error =? BOWLER_ERROR) then
    if (available : bool) then
      '(error, data) <- server_read ;
      if negb (error =? BOWLER_ERROR) then
        let id := getPacketId data in
        packet <- gets (fun c => packets c !! id) ;
        match packet with
        | None =>
            modify (emit (Log (LogNotFound id))) >>
            let data1 := clearPayload data in
            writeError <- server_write data1 ;
            when (writeError =? BOWLER_ERROR) (logErrno LogReplyError) >>
            modify (set_errno ENODEV) >>
            ret BOWLER_ERROR
        | Some p =>
            (if isReliable p
             then handlePacketReliable (id, p) data
             else handlePacketUnreliable (id, p) data) >>
            ret 1
        end
      else
        logErrno LogReadError >>
        ret 1
    else ret 1
  else
    e <- gets errno ;
    when (negb (e =? EWOULDBLOCK)) (modify (emit (Log (LogPeekError e)))) >>
    ret 1.

(** ** The remaining members *)

(** [getAllPacketIDs].  The vector is first sized with
    [ids.reserve(packets.size() - 1)]; [size()] is unsigned, so on an empty
    registry the request wraps around to the largest [size_t], which is more
    than any vector can hold, and [reserve] throws [std::length_error]: no
    list is returned ([None]).  Otherwise the keys are visited in the order
    of [std::map], ascending, and every key but the server management
    identifier is appended. *)
Definition getAllPacketIDs : M (option (list Z)) := fun c =>
  if decide (size (packets c) = 0%nat) then (None, c)
  else (Some (filter (fun id => id <> SERVER_MANAGEMENT_PACKET_ID)
                (merge_sort Z.le ((map_to_list (packets c)).*1))), c).

(** The constructor: the object starts with empty tables and an empty queue
    and registers the server management handler at once, ignoring the result
    of [addPacket].  [ServerManagementPacket] is declared in a header that is
    not part of the sources at hand, so the handler is an argument here, as
    is the value [errno] has at that moment. *)
Definition DefaultBowlerComs (iserver : Srv) (management : Pkt) (e : Z) : Coms :=
  snd (addPacket management (mkComs iserver ∅ ∅ [] e [])).

(** *** Describing what an iteration receives *)

(** The frame [loop] gets from the transport in the state [c], if any: the
    readiness check succeeds and reports data, and the read succeeds. *)
Definition incoming (c : Coms) : option (list Z) :=
  let '(s1, e1, r1, available) := isDataAvailable (server c) (errno c) in
  if negb (r1 =? BOWLER_ERROR) && (available : bool) then
    let '(_, _, r2, data) := read s1 e1 in
    if negb (r2 =? BOWLER_ERROR) then Some data else None
  else None.

(** Successive frames for one reliable channel, each handed to
    [handlePacketReliable] with the handler the registry holds at that
    moment, as successive iterations of [loop] do.  The result is the list of
    the replies. *)
Fixpoint handleFrames (id : Z) (frames : list (list Z)) : M (list (list Z)) :=
  match frames with
  | [] => ret []
  | idata :: rest =>
      packet <- gets (fun c => packets c !! id) ;
      match packet with
      | None => ret []
      | Some p =>
          reply <- handlePacketReliable (id, p) idata ;
          replies <- handleFrames id rest ;
          ret (reply :: replies)
      end
  end.

(** What the registry functions keep: every handler is stored under its own
    identifier, and every reliable handler has a channel state. *)
Definition registry_ok (c : Coms) : Prop :=
  forall id p, packets c !! id = Some p ->
    getId p = id /\ (isReliable p = true -> is_Some (reliableState c !! id)).

(** ** Facts: the reliable transport *)

(** Two objects with the same fields are the same object. *)
Lemma Coms_ext (c1 c2 : Coms) :
  server c1 = server c2 -> packets c1 = packets c2 ->
  reliableState c1 = reliableState c2 -> ensuredPackets c1 = ensuredPackets c2 ->
  errno c1 = errno c2 -> trace c1 = trace c2 -> c1 = c2.
Proof. destruct c1, c2. cbn. by intros -> -> -> -> -> ->. Qed.

(** Closes [(a, c1) = (a, c2)] for states built by the setters, field by
    field. *)
Ltac same_state :=
  refine (f_equal2 pair _ _); [reflexivity|];
  apply Coms_ext;
  cbn [server packets reliableState ensuredPackets errno trace
       set_server set_packets set_reliableState set_ensuredPackets set_errno emit];
  cbv [log_if]; rewrite <- ?app_assoc; reflexivity.

Ltac run_monad :=
  cbv [bind ret modify gets when logErrno server_write packet_event
       reliableState_at assign_state server_read server_isDataAvailable];
  cbn [fst snd server packets reliableState ensuredPackets errno trace
       set_server set_packets set_reliableState set_ensuredPackets set_errno emit].

Lemma handlePacketReliable_zero_accept (c : Coms) (id : Z) (p p' : Pkt)
    (idata payload' : list Z) (e1 r : Z) (s' : Srv) (e2 w : Z) :
  reliableState c !! id = Some waitForZero ->
  getSeqNum idata = 0 ->
  event p (errno c) (drop HEADER_LENGTH idata) = (p', e1, payload', r) ->
  write (server c) e1 (setAckNum (withPayload idata payload') 0) = (s', e2, w) ->
  handlePacketReliable (id, p) idata c =
    (setAckNum (withPayload idata payload') 0,
     mkComs s' (<[id := p']> (packets c))
       (<[id := if (id =? SERVER_MANAGEMENT_PACKET_ID) && (r =? 2)
                then waitForZero else waitForOne]> (reliableState c))
       (ensuredPackets c) e2
       (trace c ++ [CallEvent id (drop HEADER_LENGTH idata)]
          ++ log_if (r =? BOWLER_ERROR) (LogEventError e1)
          ++ [CallWrite (setAckNum (withPayload idata payload') 0)]
          ++ log_if (w =? BOWLER_ERROR) (LogWriteError e2))).
Proof.
  intros Hst Hseq Hev Hwr. unfold handlePacketReliable. run_monad.
  rewrite Hst, Hseq. cbn [Z.eqb]. run_monad. rewrite Hev. run_monad.
  destruct (r =? BOWLER_ERROR); run_monad; rewrite Hwr; run_monad;
    destruct (w =? BOWLER_ERROR); run_monad;
    destruct ((id =? SERVER_MANAGEMENT_PACKET_ID) && (r =? 2)); run_monad;
    same_state.
Qed.

Lemma handlePacketReliable_zero_reject (c : Coms) (id : Z) (p : Pkt)
    (idata : list Z) (s' : Srv) (e2 w : Z) :
  reliableState c !! id = Some waitForZero ->
  getSeqNum idata <> 0 ->
  write (server c) (errno c) (setAckNum (clearPayload idata) 1) = (s', e2, w) ->
  handlePacketReliable (id, p) idata c =
    (setAckNum (clearPayload idata) 1,
     mkComs s' (packets c) (reliableState c) (ensuredPackets c) e2
       (trace c ++ [CallWrite (setAckNum (clearPayload idata) 1)]
          ++ log_if (w =? BOWLER_ERROR) (LogWriteError e2))).
Proof.
  intros Hst Hseq Hwr. unfold handlePacketReliable. run_monad.
  rewrite Hst. apply Z.eqb_neq in Hseq. rewrite Hseq. run_monad.
  rewrite Hwr. run_monad.
  destruct (w =? BOWLER_ERROR); run_monad; same_state.
Qed.

Lemma handlePacketReliable_one_accept (c : Coms) (id : Z) (p p' : Pkt)
    (idata payload' : list Z) (e1 r : Z) (s' : Srv) (e2 w : Z) :
  reliableState c !! id = Some waitForOne ->
  getSeqNum idata = 1 ->
  event p (errno c) (drop HEADER_LENGTH idata) = (p', e1, payload', r) ->
  write (server c) e1 (setAckNum (withPayload idata payload') 1) = (s', e2, w) ->
  handlePacketReliable (id, p) idata c =
    (setAckNum (withPayload idata payload') 1,
     mkComs s' (<[id := p']> (packets c))
       (<[id := waitForZero]> (reliableState c))
       (ensuredPackets c) e2
       (trace c ++ [CallEvent id (drop HEADER_LENGTH idata)]
          ++ log_if (r =? BOWLER_ERROR) (LogEventError e1)
          ++ [CallWrite (setAckNum (withPayload idata payload') 1)]
          ++ log_if (w =? BOWLER_ERROR) (LogWriteError e2))).
Proof.
  intros Hst Hseq Hev Hwr. unfold handlePacketReliable. run_monad.
  rewrite Hst, Hseq. cbn [Z.eqb Pos.eqb]. run_monad. rewrite Hev. run_monad.
  destruct (r =? BOWLER_ERROR); run_monad; rewrite Hwr; run_monad;
    destruct (w =? BOWLER_ERROR); run_monad; same_state.
Qed.

Lemma handlePacketReliable_one_reject (c : Coms) (id : Z) (p : Pkt)
    (idata : list Z) (s' : Srv) (e2 w : Z) :
  reliableState c !! id = Some waitForOne ->
  getSeqNum idata <> 1 ->
  write (server c) (errno c) (setAckNum (clearPayload idata) 0) = (s', e2, w) ->
  handlePacketReliable (id, p) idata c =
    (setAckNum (clearPayload idata) 0,
     mkComs s' (packets c) (reliableState c) (ensuredPackets c) e2
       (trace c ++ [CallWrite (setAckNum (clearPayload idata) 0)]
          ++ log_if (w =? BOWLER_ERROR) (LogWriteError e2))).
Proof.
  intros Hst Hseq Hwr. unfold handlePacketReliable. run_monad.
  rewrite Hst. apply Z.eqb_neq in Hseq. rewrite Hseq. run_monad.
  rewrite Hwr. run_monad.
  destruct (w =? BOWLER_ERROR); run_monad; same_state.
Qed.

(** *** Frames *)

Lemma getAckNum_setAckNum (d : list Z) (v : Z) :
  (HEADER_LENGTH <= length d)%nat -> getAckNum (setAckNum d v) = v.
Proof.
  intros Hlen. unfold getAckNum, setAckNum, HEADER_LENGTH in *.
  destruct d as [|a [|b [|x d]]]; simpl in Hlen; try lia. reflexivity.
Qed.

Lemma length_withPayload (idata payload : list Z) :
  (HEADER_LENGTH <= length idata)%nat ->
  (HEADER_LENGTH <= length (withPayload idata payload))%nat.
Proof.
  intros Hlen. unfold withPayload. rewrite length_app, length_take. lia.
Qed.

Lemma length_clearPayload (idata : list Z) :
  length (clearPayload idata) = length idata.
Proof.
  unfold clearPayload. rewrite length_app, length_take, length_replicate. lia.
Qed.

Lemma header_clearPayload (d : list Z) :
  take HEADER_LENGTH (clearPayload d) = take HEADER_LENGTH d.
Proof.
  unfold clearPayload, HEADER_LENGTH.
  destruct d as [|a [|b [|x d]]]; reflexivity.
Qed.

Lemma payload_clearPayload (d : list Z) :
  drop HEADER_LENGTH (clearPayload d) = replicate (length d - HEADER_LENGTH) 0.
Proof.
  unfold clearPayload, HEADER_LENGTH.
  destruct d as [|a [|b [|x d]]]; reflexivity.
Qed.

Lemma payload_setAckNum (d : list Z) (v : Z) :
  drop HEADER_LENGTH (setAckNum d v) = drop HEADER_LENGTH d.
Proof.
  unfold setAckNum, HEADER_LENGTH.
  destruct d as [|a [|b [|x d]]]; reflexivity.
Qed.

(** *** Traces *)

Lemma events_of_app (a b : list Effect) :
  events_of (a ++ b) = events_of a ++ events_of b.
Proof. apply omap_app. Qed.

Lemma writes_of_app (a b : list Effect) :
  writes_of (a ++ b) = writes_of a ++ writes_of b.
Proof. apply omap_app. Qed.

Lemma factories_of_app (a b : list Effect) :
  factories_of (a ++ b) = factories_of a ++ factories_of b.
Proof. apply omap_app. Qed.

Lemma logs_of_app (a b : list Effect) :
  logs_of (a ++ b) = logs_of a ++ logs_of b.
Proof. apply omap_app. Qed.

Ltac read_trace :=
  cbn [trace];
  rewrite ?events_of_app, ?writes_of_app, ?factories_of_app, ?logs_of_app;
  unfold log_if;
  repeat match goal with |- context [if ?b then _ else _] => destruct b end;
  cbn [events_of writes_of factories_of logs_of omap list_omap app];
  rewrite ?app_nil_r; try reflexivity.

(** *** The four rows of the transition table *)

(** C1.  A channel waiting for sequence number zero that receives it: the
    handler runs exactly once, on the payload region; the reply is the buffer
    as the handler left it with the acknowledgment byte set to 0, and it is
    written once; the channel then waits for sequence number one, unless it
    is the server management channel and the handler returned 2 (a
    disconnection was processed), in which case it keeps waiting for zero.
    No other channel's state is touched. *)
Theorem C1_wait_zero_accepts_seq_zero (c c' : Coms) (id : Z) (p p' : Pkt)
    (idata payload' frame : list Z) (e1 r : Z) :
  packets c !! id = Some p ->
  isReliable p = true ->
  reliableState c !! id = Some waitForZero ->
  (HEADER_LENGTH <= length idata)%nat ->
  getSeqNum idata = 0 ->
  event p (errno c) (drop HEADER_LENGTH idata) = (p', e1, payload', r) ->
  handlePacketReliable (id, p) idata c = (frame, c') ->
  events_of (trace c') = events_of (trace c) ++ [(id, drop HEADER_LENGTH idata)]
  /\ frame = setAckNum (withPayload idata payload') 0
  /\ getAckNum frame = 0
  /\ writes_of (trace c') = writes_of (trace c) ++ [frame]
  /\ (id = SERVER_MANAGEMENT_PACKET_ID /\ r = 2 ->
      reliableState c' !! id = Some waitForZero)
  /\ (~ (id = SERVER_MANAGEMENT_PACKET_ID /\ r = 2) ->
      reliableState c' !! id = Some waitForOne)
  /\ (forall j, j <> id -> reliableState c' !! j = reliableState c !! j).
Proof.
  intros _ _ Hst Hlen Hseq Hev Hrun.
  destruct (write (server c) e1 (setAckNum (withPayload idata payload') 0))
    as [[s' e2] w] eqn:Hwr.
  rewrite (handlePacketReliable_zero_accept c id p p' idata payload' e1 r s' e2 w
             Hst Hseq Hev Hwr) in Hrun.
  injection Hrun as <- <-.
  split; [read_trace|]. split; [reflexivity|].
  split; [apply getAckNum_setAckNum, length_withPayload, Hlen|].
  split; [read_trace|]. cbn [reliableState].
  split; [|split].
  - intros [-> ->]. rewrite Z.eqb_refl. cbn. apply lookup_insert_eq.
  - intros Hno.
    destruct ((id =? SERVER_MANAGEMENT_PACKET_ID) && (r =? 2)) eqn:Hb.
    + apply andb_true_iff in Hb as [Hi Hr].
      apply Z.eqb_eq in Hi, Hr. tauto.
    + apply lookup_insert_eq.
  - intros j Hj. by apply lookup_insert_ne.
Qed.

(** What both rejecting branches share: nothing but one write of the
    buffer with its payload cleared and the given acknowledgment number. *)
Lemma handlePacketReliable_reject (c c' : Coms) (id : Z) (p : Pkt)
    (idata frame : list Z) (st : states_t) :
  reliableState c !! id = Some st ->
  (st = waitForZero /\ getSeqNum idata <> 0) \/
  (st = waitForOne /\ getSeqNum idata <> 1) ->
  handlePacketReliable (id, p) idata c = (frame, c') ->
  frame = setAckNum (clearPayload idata)
            (match st with waitForZero => 1 | waitForOne => 0 end)
  /\ events_of (trace c') = events_of (trace c)
  /\ writes_of (trace c') = writes_of (trace c) ++ [frame]
  /\ reliableState c' = reliableState c
  /\ packets c' = packets c.
Proof.
  intros Hst Hcase Hrun.
  destruct Hcase as [[-> Hseq] | [-> Hseq]].
  - destruct (write (server c) (errno c) (setAckNum (clearPayload idata) 1))
      as [[s' e2] w] eqn:Hwr.
    rewrite (handlePacketReliable_zero_reject c id p idata s' e2 w Hst Hseq Hwr)
      in Hrun.
    injection Hrun as <- <-. repeat split; read_trace.
  - destruct (write (server c) (errno c) (setAckNum (clearPayload idata) 0))
      as [[s' e2] w] eqn:Hwr.
    rewrite (handlePacketReliable_one_reject c id p idata s' e2 w Hst Hseq Hwr)
      in Hrun.
    injection Hrun as <- <-. repeat split; read_trace.
Qed.

Lemma reject_frame_shape (idata : list Z) (v : Z) :
  (HEADER_LENGTH <= length idata)%nat ->
  getAckNum (setAckNum (clearPayload idata) v) = v
  /\ drop HEADER_LENGTH (setAckNum (clearPayload idata) v)
     = replicate (length idata - HEADER_LENGTH) 0
  /\ getPacketId (setAckNum (clearPayload idata) v) = getPacketId idata
  /\ getSeqNum (setAckNum (clearPayload idata) v) = getSeqNum idata.
Proof.
  intros Hlen. split.
  { apply getAckNum_setAckNum. by rewrite length_clearPayload. }
  split.
  { by rewrite payload_setAckNum, payload_clearPayload. }
  unfold getPacketId, getSeqNum, setAckNum, clearPayload, HEADER_LENGTH in *.
  destruct idata as [|a [|b [|x d]]]; simpl in Hlen; try lia.
  split; reflexivity.
Qed.

(** C2.  A frame with the other parity's sequence number (1 while waiting
    for zero, 0 while waiting for one): the handler is not run, the reply is
    the buffer with the payload region zeroed and the acknowledgment byte set
    to the received sequence number (1 while waiting for zero, 0 while
    waiting for one), it is written once, and neither the state table nor the
    registry changes. *)
Theorem C2_wrong_parity_is_acked_not_handled (c c' : Coms) (id : Z) (p : Pkt)
    (idata frame : list Z) (st : states_t) :
  packets c !! id = Some p ->
  isReliable p = true ->
  reliableState c !! id = Some st ->
  (HEADER_LENGTH <= length idata)%nat ->
  (st = waitForZero /\ getSeqNum idata = 1) \/
  (st = waitForOne /\ getSeqNum idata = 0) ->
  handlePacketReliable (id, p) idata c = (frame, c') ->
  events_of (trace c') = events_of (trace c)
  /\ drop HEADER_LENGTH frame = replicate (length idata - HEADER_LENGTH) 0
  /\ getAckNum frame = getSeqNum idata
  /\ (st = waitForZero -> getAckNum frame = 1)
  /\ (st = waitForOne -> getAckNum frame = 0)
  /\ writes_of (trace c') = writes_of (trace c) ++ [frame]
  /\ reliableState c' = reliableState c
  /\ packets c' = packets c.
Proof.
  intros _ _ Hst Hlen Hcase Hrun.
  assert (Hcase' : (st = waitForZero /\ getSeqNum idata <> 0) \/
                   (st = waitForOne /\ getSeqNum idata <> 1)).
  { destruct Hcase as [[-> Hs] | [-> Hs]]; [left | right]; rewrite Hs; done. }
  destruct (handlePacketReliable_reject c c' id p idata frame st Hst Hcase' Hrun)
    as (-> & Hev & Hwr & Hrs & Hpk).
  destruct (reject_frame_shape idata
              (match st with waitForZero => 1 | waitForOne => 0 end) Hlen)
    as (Hack & Hpay & _ & _).
  rewrite Hack.
  repeat split; try assumption.
  - destruct Hcase as [[-> Hs] | [-> Hs]]; by rewrite Hs.
  - by intros ->.
  - by intros ->.
Qed.

(** C3.  A channel waiting for sequence number one that receives it: the
    handler runs exactly once on the payload region, the reply carries
    acknowledgment number 1 and is written once, and the channel waits for
    zero afterwards whatever the handler returned, the server management
    channel and the return value 2 included. *)
Theorem C3_wait_one_accepts_seq_one (c c' : Coms) (id : Z) (p p' : Pkt)
    (idata payload' frame : list Z) (e1 r : Z) :
  packets c !! id = Some p ->
  isReliable p = true ->
  reliableState c !! id = Some waitForOne ->
  (HEADER_LENGTH <= length idata)%nat ->
  getSeqNum idata = 1 ->
  event p (errno c) (drop HEADER_LENGTH idata) = (p', e1, payload', r) ->
  handlePacketReliable (id, p) idata c = (frame, c') ->
  events_of (trace c') = events_of (trace c) ++ [(id, drop HEADER_LENGTH idata)]
  /\ frame = setAckNum (withPayload idata payload') 1
  /\ getAckNum frame = 1
  /\ writes_of (trace c') = writes_of (trace c) ++ [frame]
  /\ reliableState c' !! id = Some waitForZero
  /\ (forall j, j <> id -> reliableState c' !! j = reliableState c !! j).
Proof.
  intros _ _ Hst Hlen Hseq Hev Hrun.
  destruct (write (server c) e1 (setAckNum (withPayload idata payload') 1))
    as [[s' e2] w] eqn:Hwr.
  rewrite (handlePacketReliable_one_accept c id p p' idata payload' e1 r s' e2 w
             Hst Hseq Hev Hwr) in Hrun.
  injection Hrun as <- <-.
  split; [read_trace|]. split; [reflexivity|].
  split; [apply getAckNum_setAckNum, length_withPayload, Hlen|].
  split; [read_trace|]. cbn [reliableState].
  split; [apply lookup_insert_eq|].
  intros j Hj. by apply lookup_insert_ne.
Qed.

(** C9.  Only the exact expected value is accepted.  While waiting for zero
    every other sequence byte, not only 1, is answered with acknowledgment
    number 1; while waiting for one every sequence byte other than 1, not
    only 0, is answered with acknowledgment number 0.  In both cases the
    handler is not run, the payload region of the reply is zero, the reply is
    written once and the state table is unchanged. *)
Theorem C9_only_exact_sequence_number_accepted (c c' : Coms) (id : Z) (p : Pkt)
    (idata frame : list Z) (st : states_t) :
  packets c !! id = Some p ->
  isReliable p = true ->
  reliableState c !! id = Some st ->
  (HEADER_LENGTH <= length idata)%nat ->
  getSeqNum idata <> (match st with waitForZero => 0 | waitForOne => 1 end) ->
  handlePacketReliable (id, p) idata c = (frame, c') ->
  getAckNum frame = (match st with waitForZero => 1 | waitForOne => 0 end)
  /\ drop HEADER_LENGTH frame = replicate (length idata - HEADER_LENGTH) 0
  /\ getSeqNum frame = getSeqNum idata
  /\ events_of (trace c') = events_of (trace c)
  /\ writes_of (trace c') = writes_of (trace c) ++ [frame]
  /\ reliableState c' = reliableState c.
Proof.
  intros _ _ Hst Hlen Hseq Hrun.
  assert (Hcase : (st = waitForZero /\ getSeqNum idata <> 0) \/
                  (st = waitForOne /\ getSeqNum idata <> 1)).
  { destruct st; [left | right]; done. }
  destruct (handlePacketReliable_reject c c' id p idata frame st Hst Hcase Hrun)
    as (-> & Hev & Hwr & Hrs & Hpk).
  destruct (reject_frame_shape idata
              (match st with waitForZero => 1 | waitForOne => 0 end) Hlen)
    as (Hack & Hpay & _ & Hsq).
  repeat split; assumption.
Qed.

(** ** Facts: the registry *)

Lemma addPacket_used (c : Coms) (ipacket q : Pkt) :
  packets c !! getId ipacket = Some q ->
  addPacket ipacket c = (BOWLER_ERROR, set_errno EINVAL c).
Proof. intros Hq. unfold addPacket. by rewrite Hq. Qed.

Lemma addPacket_free (c : Coms) (ipacket : Pkt) :
  packets c !! getId ipacket = None ->
  addPacket ipacket c =
    (1, mkComs (server c) (<[getId ipacket := ipacket]> (packets c))
          (if isReliable ipacket
           then <[getId ipacket := waitForZero]> (reliableState c)
           else reliableState c)
          (ensuredPackets c) (errno c) (trace c)).
Proof.
  intros Hq. unfold addPacket. rewrite Hq.
  destruct (isReliable ipacket); reflexivity.
Qed.

(** C8.  [addPacket] on an identifier that is in use returns [BOWLER_ERROR]
    with [errno] set to [EINVAL] and leaves the registry and the state table
    as they were, so the identifier still maps to the handler registered
    first.  On a free identifier it returns 1, stores the handler and, when
    the handler is reliable, sets the channel to wait for sequence number
    zero (the state table is untouched otherwise). *)
Theorem C8_addPacket_rejects_used_id (c c' : Coms) (ipacket : Pkt) (r : Z) :
  addPacket ipacket c = (r, c') ->
  (forall q, packets c !! getId ipacket = Some q ->
     r = BOWLER_ERROR /\ errno c' = EINVAL
     /\ packets c' = packets c /\ reliableState c' = reliableState c
     /\ packets c' !! getId ipacket = Some q)
  /\ (packets c !! getId ipacket = None ->
     r = 1
     /\ packets c' = <[getId ipacket := ipacket]> (packets c)
     /\ packets c' !! getId ipacket = Some ipacket
     /\ (isReliable ipacket = true ->
         reliableState c' = <[getId ipacket := waitForZero]> (reliableState c)
         /\ reliableState c' !! getId ipacket = Some waitForZero)
     /\ (isReliable ipacket = false -> reliableState c' = reliableState c)).
Proof.
  intros Hrun. split.
  - intros q Hq. rewrite (addPacket_used c ipacket q Hq) in Hrun.
    injection Hrun as <- <-. by repeat split.
  - intros Hq. rewrite (addPacket_free c ipacket Hq) in Hrun.
    injection Hrun as <- <-. cbn [packets reliableState].
    split; [done|]. split; [done|]. split; [apply lookup_insert_eq|].
    split; intros ->; [|done]. split; [done | apply lookup_insert_eq].
Qed.

Lemma removePacket_run (c : Coms) (iid : Z) :
  removePacket iid c =
    (tt, mkComs (server c) (delete iid (packets c)) (reliableState c)
           (ensuredPackets c) (errno c) (trace c)).
Proof. reflexivity. Qed.

(** C4, as the code has it.  [removePacket] erases the identifier from the
    registry and nothing else: the state table keeps every entry, the one of
    the removed identifier included.  Removing an identifier that is not
    registered changes nothing at all. *)
Theorem C4_removePacket_keeps_state_table (c c' : Coms) (iid : Z) :
  removePacket iid c = (tt, c') ->
  packets c' = delete iid (packets c)
  /\ packets c' !! iid = None
  /\ (forall j, j <> iid -> packets c' !! j = packets c !! j)
  /\ reliableState c' = reliableState c
  /\ (packets c !! iid = None -> c' = c).
Proof.
  rewrite removePacket_run. intros Hrun. injection Hrun as <-.
  cbn [packets reliableState].
  split; [done|]. split; [apply lookup_delete_eq|].
  split; [intros j Hj; by apply lookup_delete_ne|]. split; [done|].
  intros Hnone. rewrite (delete_id _ _ Hnone). by destruct c.
Qed.

(** The entry [removePacket] leaves behind is overwritten when a reliable
    handler is registered under the identifier again. *)
Lemma stale_state_reset_on_registration (c c1 c2 : Coms) (ipacket : Pkt) (r : Z) :
  isReliable ipacket = true ->
  removePacket (getId ipacket) c = (tt, c1) ->
  addPacket ipacket c1 = (r, c2) ->
  r = 1 /\ reliableState c2 !! getId ipacket = Some waitForZero.
Proof.
  rewrite removePacket_run. intros Hrel Hrm Hadd. injection Hrm as <-.
  rewrite addPacket_free in Hadd by apply lookup_delete_eq.
  injection Hadd as <- <-. cbn [reliableState]. rewrite Hrel.
  split; [done | apply lookup_insert_eq].
Qed.

(** ** Facts: the ensured packets *)

Lemma factories_of_calls (l : list nat) : factories_of (CallFactory <$> l) = l.
Proof. induction l as [|i l IH]; [done|]. cbn. f_equal. exact IH. Qed.

Lemma stored_all_cons (g : unit -> Pkt) (elems : list (unit -> Pkt)) (m : gmap Z Pkt) :
  stored_all (g :: elems) m = stored_all elems (<[factory_id g := g tt]> m).
Proof. reflexivity. Qed.

Lemma stored_all_lookup_other (elems : list (unit -> Pkt)) (m : gmap Z Pkt) (k : Z) :
  k ∉ factory_id <$> elems -> stored_all elems m !! k = m !! k.
Proof.
  revert m. induction elems as [|g elems IH]; intros m Hk; [done|].
  rewrite fmap_cons in Hk. apply not_elem_of_cons in Hk as [Hne Hk].
  rewrite stored_all_cons, IH by done. by apply lookup_insert_ne.
Qed.

Lemma stored_all_lookup (elems : list (unit -> Pkt)) (m : gmap Z Pkt)
    (g : unit -> Pkt) :
  NoDup (factory_id <$> elems) -> g ∈ elems ->
  stored_all elems m !! factory_id g = Some (g tt).
Proof.
  revert m. induction elems as [|g0 elems IH]; intros m Hnd Hin.
  - by apply elem_of_nil in Hin.
  - rewrite fmap_cons in Hnd. apply NoDup_cons in Hnd as [Hg0 Hnd].
    rewrite stored_all_cons.
    apply elem_of_cons in Hin as [-> | Hin].
    + rewrite stored_all_lookup_other by done. apply lookup_insert_eq.
    + by apply IH.
Qed.

(** The loop of [addEnsuredPackets] on a queue whose first [length pre]
    factories register and whose next one collides. *)
Lemma addEnsuredPackets_from_collision (pre post : list (unit -> Pkt))
    (f : unit -> Pkt) :
  BOWLER_ERROR <> 1 ->
  forall (i : nat) (c : Coms),
  NoDup (factory_id <$> pre) ->
  (forall g, g ∈ pre -> packets c !! factory_id g = None) ->
  is_Some (packets c !! factory_id f) \/ factory_id f ∈ factory_id <$> pre ->
  addEnsuredPackets_from i (pre ++ f :: post) c =
    (BOWLER_ERROR,
     mkComs (server c) (stored_all pre (packets c))
       (initialised_all pre (reliableState c)) (ensuredPackets c) EINVAL
       (trace c ++ (CallFactory <$> seq i (S (length pre))))).
Proof.
  intros Hbe. induction pre as [|g pre IH]; intros i c Hnd Hfree Hf.
  - destruct Hf as [[q Hq] | Hf]; [|by apply elem_of_nil in Hf].
    cbn [app addEnsuredPackets_from]. run_monad.
    rewrite (addPacket_used (emit (CallFactory i) c) (f tt) q Hq).
    rewrite Z.eqb_refl. by destruct c.
  - cbn [app addEnsuredPackets_from]. run_monad.
    cbn [fmap list_fmap] in Hnd, Hf. apply NoDup_cons in Hnd as [Hg Hnd].
    assert (Hgfree : packets (emit (CallFactory i) c) !! getId (g tt) = None).
    { apply Hfree. apply elem_of_cons; by left. }
    rewrite (addPacket_free _ (g tt) Hgfree).
    apply Z.eqb_neq in Hbe. rewrite Z.eqb_sym, Hbe.
    rewrite IH; cbn [server packets reliableState ensuredPackets errno trace emit].
    + rewrite <- app_assoc. reflexivity.
    + done.
    + intros g' Hg'. rewrite lookup_insert_ne.
      * apply Hfree. apply elem_of_cons; by right.
      * intros Heq. apply Hg. fold (factory_id g) in Heq. rewrite Heq.
        by apply list_elem_of_fmap_2.
    + destruct Hf as [[q Hq] | Hf].
      * left. destruct (decide (getId (g tt) = factory_id f)) as [Heq | Hne].
        -- rewrite Heq, lookup_insert_eq. eauto.
        -- rewrite lookup_insert_ne by done. eauto.
      * apply elem_of_cons in Hf as [Heq | Hf]; [left | by right].
        rewrite Heq. unfold factory_id. rewrite lookup_insert_eq. eauto.
Qed.

(** C7.  [addEnsuredPackets] on a queue [pre ++ f :: post] in which the
    handlers of [pre] have free, pairwise different identifiers and the
    identifier of [f] is in use (from before, or by one of [pre]): the
    factories at positions 0 to [length pre] are run, in this order, and no
    other; the call returns [BOWLER_ERROR] with [errno] set to [EINVAL]; and
    every handler of [pre] is registered when it returns.  [BOWLER_ERROR] is
    taken to differ from 1, the value [addPacket] returns on success. *)
Theorem C7_drain_stops_at_first_collision (c c' : Coms)
    (pre post : list (unit -> Pkt)) (f : unit -> Pkt) (r : Z) :
  BOWLER_ERROR <> 1 ->
  ensuredPackets c = pre ++ f :: post ->
  NoDup (factory_id <$> pre) ->
  (forall g, g ∈ pre -> packets c !! factory_id g = None) ->
  is_Some (packets c !! factory_id f) \/ factory_id f ∈ factory_id <$> pre ->
  addEnsuredPackets c = (r, c') ->
  r = BOWLER_ERROR /\ errno c' = EINVAL
  /\ factories_of (trace c') = factories_of (trace c) ++ seq 0 (S (length pre))
  /\ packets c' = stored_all pre (packets c)
  /\ reliableState c' = initialised_all pre (reliableState c)
  /\ (forall g, g ∈ pre -> packets c' !! factory_id g = Some (g tt))
  /\ (forall k, k ∉ factory_id <$> pre -> packets c' !! k = packets c !! k)
  /\ ensuredPackets c' = ensuredPackets c.
Proof.
  intros Hbe Hq Hnd Hfree Hf Hrun.
  cbv [addEnsuredPackets bind gets] in Hrun. rewrite Hq in Hrun.
  rewrite (addEnsuredPackets_from_collision pre post f Hbe 0%nat c Hnd Hfree Hf)
    in Hrun.
  injection Hrun as <- <-.
  cbn [packets reliableState ensuredPackets errno trace].
  split; [done|]. split; [done|].
  split.
  { rewrite factories_of_app. f_equal.
    exact (factories_of_calls (seq 0 (S (length pre)))). }
  split; [done|]. split; [done|].
  split; [intros g Hg; by apply stored_all_lookup|].
  split; [intros k Hk; by apply stored_all_lookup_other | done].
Qed.

(** The loop of [addEnsuredPackets] never touches the queue and never
    overwrites a registered handler. *)
Lemma addEnsuredPackets_from_keeps (elems : list (unit -> Pkt)) :
  forall (i : nat) (c c' : Coms) (r : Z),
  addEnsuredPackets_from i elems c = (r, c') ->
  ensuredPackets c' = ensuredPackets c
  /\ (forall k v, packets c !! k = Some v -> packets c' !! k = Some v).
Proof.
  induction elems as [|g elems IH]; intros i c c' r Hrun.
  - injection Hrun as <- <-. done.
  - cbn [addEnsuredPackets_from] in Hrun. revert Hrun. run_monad.
    destruct (packets c !! getId (g tt)) as [q|] eqn:Hq.
    + rewrite (addPacket_used (emit (CallFactory i) c) (g tt) q Hq).
      rewrite Z.eqb_refl. intros Hrun. injection Hrun as <- <-. done.
    + rewrite (addPacket_free (emit (CallFactory i) c) (g tt) Hq).
      cbn [server packets reliableState ensuredPackets errno trace emit].
      assert (Hins : forall k v, packets c !! k = Some v ->
                <[getId (g tt) := g tt]> (packets c) !! k = Some v).
      { intros k v Hk. rewrite lookup_insert_ne; [done|]. congruence. }
      destruct (1 =? BOWLER_ERROR).
      * intros Hrun. injection Hrun as <- <-. done.
      * intros Hrun. apply IH in Hrun as [Hqueue Hkeep].
        split; [done|]. intros k v Hk. apply Hkeep, Hins, Hk.
Qed.

(** C10.  A drain leaves the queue as it is.  So after a drain that
    registered at least one handler (it changed the registry, which it does
    only by a successful registration; as it stops at the first failure, the
    first factory's handler is then among the registered ones), the next
    drain runs the factory at position 0 again, finds its identifier in use,
    and returns [BOWLER_ERROR] with [errno] set to [EINVAL] without running
    any other factory or changing the registry or the state table. *)
Theorem C10_second_drain_fails_at_first_factory (c c1 c2 : Coms) (r1 r2 : Z) :
  addEnsuredPackets c = (r1, c1) ->
  packets c1 <> packets c ->
  addEnsuredPackets c1 = (r2, c2) ->
  ensuredPackets c1 = ensuredPackets c
  /\ (exists f rest, ensuredPackets c = f :: rest
        /\ packets c !! factory_id f = None
        /\ packets c1 !! factory_id f = Some (f tt))
  /\ r2 = BOWLER_ERROR /\ errno c2 = EINVAL
  /\ factories_of (trace c2) = factories_of (trace c1) ++ [0%nat]
  /\ packets c2 = packets c1
  /\ reliableState c2 = reliableState c1
  /\ ensuredPackets c2 = ensuredPackets c1.
Proof.
  intros Hrun1 Hchanged Hrun2.
  cbv [addEnsuredPackets bind gets] in Hrun1, Hrun2.
  destruct (addEnsuredPackets_from_keeps _ _ _ _ _ Hrun1) as [Hqueue _].
  rewrite Hqueue in Hrun2.
  destruct (ensuredPackets c) as [|f rest] eqn:Hq.
  { injection Hrun1 as <- <-. done. }
  assert (Hfirst : packets c !! factory_id f = None
                   /\ packets c1 !! factory_id f = Some (f tt)).
  { cbn [addEnsuredPackets_from] in Hrun1. revert Hrun1. run_monad.
    destruct (packets c !! getId (f tt)) as [q|] eqn:Hf.
    - rewrite (addPacket_used (emit (CallFactory 0) c) (f tt) q Hf).
      rewrite Z.eqb_refl. intros Hrun. injection Hrun as <- <-. done.
    - rewrite (addPacket_free (emit (CallFactory 0) c) (f tt) Hf).
      cbn [server packets reliableState ensuredPackets errno trace emit].
      split; [done|]. revert Hrun1.
      destruct (1 =? BOWLER_ERROR).
      + intros Hrun. injection Hrun as <- <-. apply lookup_insert_eq.
      + intros Hrun. apply addEnsuredPackets_from_keeps in Hrun as [_ Hkeep].
        apply Hkeep. apply lookup_insert_eq. }
  destruct Hfirst as [Hfree Hreg].
  split; [done|]. split; [by exists f, rest|].
  cbn [addEnsuredPackets_from] in Hrun2. revert Hrun2. run_monad.
  rewrite (addPacket_used (emit (CallFactory 0) c1) (f tt) (f tt) Hreg).
  rewrite Z.eqb_refl. intros Hrun. injection Hrun as <- <-.
  cbn [server packets reliableState ensuredPackets errno trace emit set_errno].
  repeat split; try done. by rewrite factories_of_app.
Qed.

(** ** Facts: one iteration of [loop] *)

Lemma loop_peek_error (c : Coms) (s1 : Srv) (e1 : Z) (b : bool) :
  isDataAvailable (server c) (errno c) = (s1, e1, BOWLER_ERROR, b) ->
  loop c =
    (1, mkComs s1 (packets c) (reliableState c) (ensuredPackets c) e1
          (trace c ++ [CallIsDataAvailable]
             ++ log_if (negb (e1 =? EWOULDBLOCK)) (LogPeekError e1))).
Proof.
  intros Hpeek. unfold loop. run_monad. rewrite Hpeek. run_monad.
  rewrite Z.eqb_refl. cbn [negb]. run_monad.
  destruct (e1 =? EWOULDBLOCK); cbn [negb]; run_monad; same_state.
Qed.

Lemma loop_idle (c : Coms) (s1 : Srv) (e1 r1 : Z) :
  isDataAvailable (server c) (errno c) = (s1, e1, r1, false) ->
  r1 <> BOWLER_ERROR ->
  loop c =
    (1, mkComs s1 (packets c) (reliableState c) (ensuredPackets c) e1
          (trace c ++ [CallIsDataAvailable])).
Proof.
  intros Hpeek Hr1. unfold loop. run_monad. rewrite Hpeek. run_monad.
  apply Z.eqb_neq in Hr1. rewrite Hr1. cbn [negb]. same_state.
Qed.

Lemma loop_read_error (c : Coms) (s1 s2 : Srv) (e1 r1 e2 : Z) (d : list Z) :
  isDataAvailable (server c) (errno c) = (s1, e1, r1, true) ->
  r1 <> BOWLER_ERROR ->
  read s1 e1 = (s2, e2, BOWLER_ERROR, d) ->
  loop c =
    (1, mkComs s2 (packets c) (reliableState c) (ensuredPackets c) e2
          (trace c ++ [CallIsDataAvailable; CallRead; Log (LogReadError e2)])).
Proof.
  intros Hpeek Hr1 Hread. unfold loop. run_monad. rewrite Hpeek. run_monad.
  apply Z.eqb_neq in Hr1. rewrite Hr1. cbn [negb]. run_monad.
  rewrite Hread. run_monad. rewrite Z.eqb_refl. cbn [negb]. run_monad.
  same_state.
Qed.

Lemma loop_unknown_id (c : Coms) (s1 s2 s3 : Srv) (e1 r1 e2 r2 e3 w : Z)
    (data : list Z) :
  isDataAvailable (server c) (errno c) = (s1, e1, r1, true) ->
  r1 <> BOWLER_ERROR ->
  read s1 e1 = (s2, e2, r2, data) ->
  r2 <> BOWLER_ERROR ->
  packets c !! getPacketId data = None ->
  write s2 e2 (clearPayload data) = (s3, e3, w) ->
  loop c =
    (BOWLER_ERROR,
     mkComs s3 (packets c) (reliableState c) (ensuredPackets c) ENODEV
       (trace c ++ [CallIsDataAvailable; CallRead;
                    Log (LogNotFound (getPacketId data));
                    CallWrite (clearPayload data)]
          ++ log_if (w =? BOWLER_ERROR) (LogReplyError e3))).
Proof.
  intros Hpeek Hr1 Hread Hr2 Hnone Hwr. unfold loop. run_monad.
  rewrite Hpeek. run_monad.
  apply Z.eqb_neq in Hr1. rewrite Hr1. cbn [negb]. run_monad.
  rewrite Hread. run_monad.
  apply Z.eqb_neq in Hr2. rewrite Hr2. cbn [negb]. run_monad.
  rewrite Hnone. run_monad. rewrite Hwr. run_monad.
  destruct (w =? BOWLER_ERROR); run_monad; same_state.
Qed.

(** A frame for a registered handler goes to the reliable or the unreliable
    path according to the handler, on the state left by the two transport
    calls, and the iteration returns 1. *)
Lemma loop_dispatch (c : Coms) (s1 s2 : Srv) (e1 r1 e2 r2 : Z)
    (data : list Z) (p : Pkt) :
  isDataAvailable (server c) (errno c) = (s1, e1, r1, true) ->
  r1 <> BOWLER_ERROR ->
  read s1 e1 = (s2, e2, r2, data) ->
  r2 <> BOWLER_ERROR ->
  packets c !! getPacketId data = Some p ->
  loop c =
    (1, snd ((if isReliable p then handlePacketReliable else handlePacketUnreliable)
               (getPacketId data, p) data
               (mkComs s2 (packets c) (reliableState c) (ensuredPackets c) e2
                  (trace c ++ [CallIsDataAvailable; CallRead])))).
Proof.
  intros Hpeek Hr1 Hread Hr2 Hsome. unfold loop. run_monad.
  rewrite Hpeek. run_monad.
  apply Z.eqb_neq in Hr1. rewrite Hr1. cbn [negb]. run_monad.
  rewrite Hread. run_monad.
  apply Z.eqb_neq in Hr2. rewrite Hr2. cbn [negb]. run_monad.
  rewrite Hsome.
  replace (emit CallRead (set_errno e2 (set_server s2
             (emit CallIsDataAvailable (set_errno e1 (set_server s1 c))))))
    with (mkComs s2 (packets c) (reliableState c) (ensuredPackets c) e2
            (trace c ++ [CallIsDataAvailable; CallRead])).
  - destruct (isReliable p); cbv beta iota;
      match goal with |- context [?h (getPacketId data, p) data ?st] =>
        destruct (h (getPacketId data, p) data st) end; reflexivity.
  - apply Coms_ext;
      cbn [server packets reliableState ensuredPackets errno trace
           set_server set_errno emit];
      rewrite <- ?app_assoc; reflexivity.
Qed.

Lemma header_accessors_clearPayload (d : list Z) :
  getPacketId (clearPayload d) = getPacketId d
  /\ getSeqNum (clearPayload d) = getSeqNum d
  /\ getAckNum (clearPayload d) = getAckNum d.
Proof.
  unfold getPacketId, getSeqNum, getAckNum, clearPayload, HEADER_LENGTH.
  destruct d as [|a [|b [|x d]]]; repeat split; reflexivity.
Qed.

(** C5, what the code does on the failing inputs.  The documentation of
    [loop] promises [BOWLER_ERROR] on error, its two branches are commented
    as errors, and the branch for an unknown identifier does return
    [BOWLER_ERROR].  Yet when the readiness check fails with an [errno]
    other than [EWOULDBLOCK], or when it succeeds with data available and the
    read fails, [loop] only prints a diagnostic and returns 1, the value of
    a successful iteration.  (It writes no frame, runs no handler and leaves
    the registry, the state table and the queue as they were.) *)
Theorem C5_transport_failure_logged_loop_returns_1 (c c' : Coms)
    (s1 : Srv) (e1 r1 : Z) (b : bool) (r : Z) :
  isDataAvailable (server c) (errno c) = (s1, e1, r1, b) ->
  (r1 = BOWLER_ERROR /\ e1 <> EWOULDBLOCK) \/
  (r1 <> BOWLER_ERROR /\ b = true /\
   exists s2 e2 d, read s1 e1 = (s2, e2, BOWLER_ERROR, d)) ->
  loop c = (r, c') ->
  r = 1
  /\ writes_of (trace c') = writes_of (trace c)
  /\ events_of (trace c') = events_of (trace c)
  /\ (r1 = BOWLER_ERROR ->
      logs_of (trace c') = logs_of (trace c) ++ [LogPeekError e1])
  /\ (r1 <> BOWLER_ERROR ->
      logs_of (trace c') = logs_of (trace c) ++ [LogReadError (errno c')])
  /\ packets c' = packets c
  /\ reliableState c' = reliableState c
  /\ ensuredPackets c' = ensuredPackets c.
Proof.
  intros Hpeek [[-> He1] | (Hr1 & -> & s2 & e2 & d & Hread)] Hrun.
  - rewrite (loop_peek_error c s1 e1 b Hpeek) in Hrun. injection Hrun as <- <-.
    apply Z.eqb_neq in He1. rewrite He1. cbn [negb].
    repeat split; try done; read_trace.
  - rewrite (loop_read_error c s1 s2 e1 r1 e2 d Hpeek Hr1 Hread) in Hrun.
    injection Hrun as <- <-.
    repeat split; try done; read_trace.
Qed.

(** C6.  A frame whose identifier has no handler: [loop] writes the frame
    back once with the payload region (everything behind the three header
    bytes) zeroed and the header bytes as received, runs no handler, changes
    neither the registry nor the state table, and returns [BOWLER_ERROR] with
    [errno] set to [ENODEV]. *)
Theorem C6_unknown_id_zeroed_echo_and_error (c c' : Coms)
    (s1 s2 : Srv) (e1 r1 e2 r2 r : Z) (data : list Z) :
  isDataAvailable (server c) (errno c) = (s1, e1, r1, true) ->
  r1 <> BOWLER_ERROR ->
  read s1 e1 = (s2, e2, r2, data) ->
  r2 <> BOWLER_ERROR ->
  packets c !! getPacketId data = None ->
  loop c = (r, c') ->
  r = BOWLER_ERROR /\ errno c' = ENODEV
  /\ writes_of (trace c') = writes_of (trace c) ++ [clearPayload data]
  /\ length (clearPayload data) = length data
  /\ drop HEADER_LENGTH (clearPayload data)
     = replicate (length data - HEADER_LENGTH) 0
  /\ take HEADER_LENGTH (clearPayload data) = take HEADER_LENGTH data
  /\ getPacketId (clearPayload data) = getPacketId data
  /\ getSeqNum (clearPayload data) = getSeqNum data
  /\ getAckNum (clearPayload data) = getAckNum data
  /\ events_of (trace c') = events_of (trace c)
  /\ packets c' = packets c
  /\ reliableState c' = reliableState c.
Proof.
  intros Hpeek Hr1 Hread Hr2 Hnone Hrun.
  destruct (write s2 e2 (clearPayload data)) as [[s3 e3] w] eqn:Hwr.
  rewrite (loop_unknown_id c s1 s2 s3 e1 r1 e2 r2 e3 w data
             Hpeek Hr1 Hread Hr2 Hnone Hwr) in Hrun.
  injection Hrun as <- <-.
  destruct (header_accessors_clearPayload data) as (Hid & Hseq & Hack).
  split; [done|]. split; [done|]. split; [read_trace|].
  split; [apply length_clearPayload|]. split; [apply payload_clearPayload|].
  split; [apply header_clearPayload|].
  repeat split; try done. read_trace.
Qed.

(** ** Facts: the unreliable path and a missing channel state *)

Lemma handlePacketUnreliable_run (c : Coms) (id : Z) (p p' : Pkt)
    (idata payload' : list Z) (e1 r : Z) (s' : Srv) (e2 w : Z) :
  event p (errno c) (drop HEADER_LENGTH idata) = (p', e1, payload', r) ->
  write (server c) e1 (withPayload idata payload') = (s', e2, w) ->
  handlePacketUnreliable (id, p) idata c =
    (withPayload idata payload',
     mkComs s' (<[id := p']> (packets c)) (reliableState c)
       (ensuredPackets c) e2
       (trace c ++ [CallEvent id (drop HEADER_LENGTH idata)]
          ++ log_if (r =? BOWLER_ERROR) (LogEventError e1)
          ++ [CallWrite (withPayload idata payload')]
          ++ log_if (w =? BOWLER_ERROR) (LogWriteError e2))).
Proof.
  intros Hev Hwr. unfold handlePacketUnreliable. run_monad.
  rewrite Hev. run_monad.
  destruct (r =? BOWLER_ERROR); run_monad; rewrite Hwr; run_monad;
    destruct (w =? BOWLER_ERROR); run_monad; same_state.
Qed.

Lemma header_withPayload (idata payload : list Z) :
  (HEADER_LENGTH <= length idata)%nat ->
  take HEADER_LENGTH (withPayload idata payload) = take HEADER_LENGTH idata
  /\ drop HEADER_LENGTH (withPayload idata payload) = payload
  /\ getPacketId (withPayload idata payload) = getPacketId idata
  /\ getSeqNum (withPayload idata payload) = getSeqNum idata
  /\ getAckNum (withPayload idata payload) = getAckNum idata.
Proof.
  unfold withPayload, getPacketId, getSeqNum, getAckNum, HEADER_LENGTH.
  destruct idata as [|a [|b [|x d]]]; simpl; intros; try lia.
  repeat split; reflexivity.
Qed.

(** X1.  The unreliable path: the handler runs exactly once on the payload
    region, and whatever it returns ([BOWLER_ERROR] included) the buffer is
    written back once, with the three header bytes as received and the
    payload as the handler left it; the state table is not touched. *)
Theorem X1_unreliable_always_replies (c c' : Coms) (id : Z) (p p' : Pkt)
    (idata payload' frame : list Z) (e1 r : Z) :
  (HEADER_LENGTH <= length idata)%nat ->
  event p (errno c) (drop HEADER_LENGTH idata) = (p', e1, payload', r) ->
  handlePacketUnreliable (id, p) idata c = (frame, c') ->
  events_of (trace c') = events_of (trace c) ++ [(id, drop HEADER_LENGTH idata)]
  /\ writes_of (trace c') = writes_of (trace c) ++ [frame]
  /\ take HEADER_LENGTH frame = take HEADER_LENGTH idata
  /\ drop HEADER_LENGTH frame = payload'
  /\ getAckNum frame = getAckNum idata
  /\ reliableState c' = reliableState c
  /\ packets c' = <[id := p']> (packets c).
Proof.
  intros Hlen Hev Hrun.
  destruct (write (server c) e1 (withPayload idata payload'))
    as [[s' e2] w] eqn:Hwr.
  rewrite (handlePacketUnreliable_run c id p p' idata payload' e1 r s' e2 w
             Hev Hwr) in Hrun.
  injection Hrun as <- <-.
  destruct (header_withPayload idata payload' Hlen) as (Ht & Hd & _ & _ & Ha).
  split; [read_trace|]. split; [read_trace|]. by repeat split.
Qed.

Lemma handlePacketReliable_missing_state (c : Coms) (id : Z) (p : Pkt)
    (idata : list Z) :
  reliableState c !! id = None ->
  handlePacketReliable (id, p) idata c =
  handlePacketReliable (id, p) idata
    (set_reliableState (<[id := waitForZero]> (reliableState c)) c).
Proof.
  intros Hnone. unfold handlePacketReliable.
  cbv [bind reliableState_at]. cbn [fst reliableState set_reliableState].
  rewrite Hnone, lookup_insert_eq. reflexivity.
Qed.

(** Everything [handlePacketReliable] can do, whatever the state table and
    the frame are. *)
Lemma handlePacketReliable_effects (c c' : Coms) (id : Z) (p : Pkt)
    (idata frame : list Z) :
  handlePacketReliable (id, p) idata c = (frame, c') ->
  writes_of (trace c') = writes_of (trace c) ++ [frame]
  /\ ((events_of (trace c') = events_of (trace c) /\ packets c' = packets c
       /\ exists a, frame = setAckNum (clearPayload idata) a)
      \/ (events_of (trace c') = events_of (trace c) ++ [(id, drop HEADER_LENGTH idata)]
          /\ exists p' payload' a, packets c' = <[id := p']> (packets c)
               /\ frame = setAckNum (withPayload idata payload') a))
  /\ ensuredPackets c' = ensuredPackets c
  /\ is_Some (reliableState c' !! id)
  /\ (forall j, j <> id -> reliableState c' !! j = reliableState c !! j).
Proof.
  assert (Hgen : forall c0 : Coms, is_Some (reliableState c0 !! id) ->
            handlePacketReliable (id, p) idata c0 = (frame, c') ->
            writes_of (trace c') = writes_of (trace c0) ++ [frame]
            /\ ((events_of (trace c') = events_of (trace c0)
                 /\ packets c' = packets c0
                 /\ exists a, frame = setAckNum (clearPayload idata) a)
                \/ (events_of (trace c') = events_of (trace c0)
                                             ++ [(id, drop HEADER_LENGTH idata)]
                    /\ exists p' payload' a,
                         packets c' = <[id := p']> (packets c0)
                         /\ frame = setAckNum (withPayload idata payload') a))
            /\ ensuredPackets c' = ensuredPackets c0
            /\ is_Some (reliableState c' !! id)
            /\ (forall j, j <> id ->
                  reliableState c' !! j = reliableState c0 !! j)).
  { intros c0 [st Hst] Hrun.
    destruct (event p (errno c0) (drop HEADER_LENGTH idata))
      as [[[p' e1] payload'] r] eqn:Hev.
    destruct st.
    - destruct (decide (getSeqNum idata = 0)) as [Hseq | Hseq].
      + destruct (write (server c0) e1 (setAckNum (withPayload idata payload') 0))
          as [[s' e2] w] eqn:Hwr.
        rewrite (handlePacketReliable_zero_accept c0 id p p' idata payload'
                   e1 r s' e2 w Hst Hseq Hev Hwr) in Hrun.
        injection Hrun as <- <-. cbn [packets reliableState ensuredPackets].
        split; [read_trace|]. split.
        { right. split; [read_trace|]. by exists p', payload', 0. }
        split; [done|]. split; [rewrite lookup_insert_eq; eauto|].
        intros j Hj. by apply lookup_insert_ne.
      + destruct (write (server c0) (errno c0) (setAckNum (clearPayload idata) 1))
          as [[s' e2] w] eqn:Hwr.
        rewrite (handlePacketReliable_zero_reject c0 id p idata s' e2 w
                   Hst Hseq Hwr) in Hrun.
        injection Hrun as <- <-. cbn [packets reliableState ensuredPackets].
        split; [read_trace|]. split.
        { left. split; [read_trace|]. split; [done|]. by exists 1. }
        split; [done|]. split; [rewrite Hst; eauto | done].
    - destruct (decide (getSeqNum idata = 1)) as [Hseq | Hseq].
      + destruct (write (server c0) e1 (setAckNum (withPayload idata payload') 1))
          as [[s' e2] w] eqn:Hwr.
        rewrite (handlePacketReliable_one_accept c0 id p p' idata payload'
                   e1 r s' e2 w Hst Hseq Hev Hwr) in Hrun.
        injection Hrun as <- <-. cbn [packets reliableState ensuredPackets].
        split; [read_trace|]. split.
        { right. split; [read_trace|]. by exists p', payload', 1. }
        split; [done|]. split; [rewrite lookup_insert_eq; eauto|].
        intros j Hj. by apply lookup_insert_ne.
      + destruct (write (server c0) (errno c0) (setAckNum (clearPayload idata) 0))
          as [[s' e2] w] eqn:Hwr.
        rewrite (handlePacketReliable_one_reject c0 id p idata s' e2 w
                   Hst Hseq Hwr) in Hrun.
        injection Hrun as <- <-. cbn [packets reliableState ensuredPackets].
        split; [read_trace|]. split.
        { left. split; [read_trace|]. split; [done|]. by exists 0. }
        split; [done|]. split; [rewrite Hst; eauto | done]. }
  intros Hrun. destruct (reliableState c !! id) as [st|] eqn:Hst.
  - apply Hgen; [rewrite Hst; eauto | done].
  - rewrite (handlePacketReliable_missing_state c id p idata Hst) in Hrun.
    apply Hgen in Hrun; [|cbn; rewrite lookup_insert_eq; eauto].
    cbn [trace packets ensuredPackets reliableState set_reliableState] in Hrun.
    destruct Hrun as (Hw & Hcase & Hq & Hsome & Hother).
    repeat split; try done.
    intros j Hj. rewrite (Hother j Hj). by apply lookup_insert_ne.
Qed.

(** X2.  A reliable handler whose identifier has no entry in the state table
    is served as if the entry said [waitForZero]: a frame with sequence
    number zero is handled, any other is answered with a zero payload and
    acknowledgment number 1 without running the handler.  The entry exists
    when [handlePacketReliable] returns. *)
Theorem X2_missing_state_is_wait_zero (c c' : Coms) (id : Z) (p : Pkt)
    (idata frame : list Z) :
  reliableState c !! id = None ->
  handlePacketReliable (id, p) idata c = (frame, c') ->
  handlePacketReliable (id, p) idata
    (mkComs (server c) (packets c) (<[id := waitForZero]> (reliableState c))
            (ensuredPackets c) (errno c) (trace c)) = (frame, c')
  /\ is_Some (reliableState c' !! id)
  /\ (getSeqNum idata = 0 ->
        events_of (trace c')
        = events_of (trace c) ++ [(id, drop HEADER_LENGTH idata)]
        /\ exists payload', frame = setAckNum (withPayload idata payload') 0)
  /\ (getSeqNum idata <> 0 ->
        frame = setAckNum (clearPayload idata) 1
        /\ events_of (trace c') = events_of (trace c)
        /\ reliableState c' = <[id := waitForZero]> (reliableState c)).
Proof.
  intros Hnone Hrun.
  pose proof (handlePacketReliable_missing_state c id p idata Hnone) as Heq.
  unfold set_reliableState in Heq. rewrite Heq in Hrun.
  split; [done|].
  split; [apply (handlePacketReliable_effects c c' id p idata frame);
          by rewrite Heq|].
  split.
  - intros Hseq.
    destruct (event p (errno c) (drop HEADER_LENGTH idata))
      as [[[p' e1] payload'] r] eqn:Hev.
    destruct (write (server c) e1 (setAckNum (withPayload idata payload') 0))
      as [[s' e2] w] eqn:Hwr.
    rewrite (handlePacketReliable_zero_accept _ id p p' idata payload'
               e1 r s' e2 w) in Hrun;
      [| apply lookup_insert_eq | done | exact Hev | exact Hwr].
    injection Hrun as <- <-. split; [read_trace | by exists payload'].
  - intros Hseq.
    destruct (write (server c) (errno c) (setAckNum (clearPayload idata) 1))
      as [[s' e2] w] eqn:Hwr.
    rewrite (handlePacketReliable_zero_reject _ id p idata s' e2 w) in Hrun;
      [| apply lookup_insert_eq | done | exact Hwr].
    injection Hrun as <- <-. cbn [reliableState].
    split; [done|]. split; [read_trace | done].
Qed.

(** ** Facts: sequences of frames on one reliable channel *)

Ltac read_long_trace :=
  read_trace; rewrite <- ?app_assoc; cbn [app]; try reflexivity.

Lemma not_reset_test (id r : Z) :
  ~ (id = SERVER_MANAGEMENT_PACKET_ID /\ r = 2) ->
  (id =? SERVER_MANAGEMENT_PACKET_ID) && (r =? 2) = false.
Proof.
  intros Hno. apply andb_false_iff.
  destruct (decide (id = SERVER_MANAGEMENT_PACKET_ID)) as [Hi | Hi].
  - right. apply Z.eqb_neq. tauto.
  - left. by apply Z.eqb_neq.
Qed.

(** X3.  One alternation.  A channel waiting for zero that receives a frame
    with sequence number 0 and then one with sequence number 1 (the first
    not being a disconnection on the server management channel) runs the
    handler on both, in this order, acknowledges them with 0 and 1, and
    waits for zero again. *)
Theorem X3_alternation_round_trip (c c1 c2 : Coms) (id : Z) (p p1 : Pkt)
    (d0 d1 f0 f1 payload0 : list Z) (e1 r0 : Z) :
  reliableState c !! id = Some waitForZero ->
  (HEADER_LENGTH <= length d0)%nat ->
  (HEADER_LENGTH <= length d1)%nat ->
  getSeqNum d0 = 0 ->
  getSeqNum d1 = 1 ->
  event p (errno c) (drop HEADER_LENGTH d0) = (p1, e1, payload0, r0) ->
  ~ (id = SERVER_MANAGEMENT_PACKET_ID /\ r0 = 2) ->
  handlePacketReliable (id, p) d0 c = (f0, c1) ->
  handlePacketReliable (id, p1) d1 c1 = (f1, c2) ->
  packets c1 !! id = Some p1
  /\ reliableState c1 !! id = Some waitForOne
  /\ events_of (trace c2)
     = events_of (trace c) ++ [(id, drop HEADER_LENGTH d0); (id, drop HEADER_LENGTH d1)]
  /\ writes_of (trace c2) = writes_of (trace c) ++ [f0; f1]
  /\ getAckNum f0 = 0
  /\ getAckNum f1 = 1
  /\ reliableState c2 !! id = Some waitForZero.
Proof.
  intros Hst Hl0 Hl1 Hs0 Hs1 Hev Hno Hrun0 Hrun1.
  destruct (write (server c) e1 (setAckNum (withPayload d0 payload0) 0))
    as [[s' e2] w] eqn:Hwr.
  rewrite (handlePacketReliable_zero_accept c id p p1 d0 payload0 e1 r0 s' e2 w
             Hst Hs0 Hev Hwr) in Hrun0.
  rewrite (not_reset_test id r0 Hno) in Hrun0.
  injection Hrun0 as <- <-.
  destruct (event p1 e2 (drop HEADER_LENGTH d1)) as [[[p2 e3] payload1] r1] eqn:Hev1.
  match type of Hrun1 with handlePacketReliable _ _ ?st = _ =>
    destruct (write (server st) e3 (setAckNum (withPayload d1 payload1) 1))
      as [[s'' e4] w'] eqn:Hwr1;
    rewrite (handlePacketReliable_one_accept st id p1 p2 d1 payload1 e3 r1
               s'' e4 w') in Hrun1;
      [| apply lookup_insert_eq | exact Hs1 | exact Hev1 | exact Hwr1]
  end.
  injection Hrun1 as <- <-. cbn [packets reliableState trace].
  split; [apply lookup_insert_eq|]. split; [apply lookup_insert_eq|].
  split; [read_long_trace|]. split; [read_long_trace|].
  split; [apply getAckNum_setAckNum, length_withPayload, Hl0|].
  split; [apply getAckNum_setAckNum, length_withPayload, Hl1|].
  apply lookup_insert_eq.
Qed.

(** X4.  A frame delivered again right after it was accepted (the first
    delivery not being a disconnection on the server management channel
    while waiting for zero) is not handled a second time: the second reply
    has the acknowledgment number of the first and a zero payload, and
    neither the state table nor the registry changes. *)
Theorem X4_redelivery_is_suppressed (c c1 c2 : Coms) (id : Z) (p p1 : Pkt)
    (d f0 f1 payload0 : list Z) (e1 r0 : Z) (st : states_t) :
  reliableState c !! id = Some st ->
  (HEADER_LENGTH <= length d)%nat ->
  getSeqNum d = (match st with waitForZero => 0 | waitForOne => 1 end) ->
  event p (errno c) (drop HEADER_LENGTH d) = (p1, e1, payload0, r0) ->
  ~ (st = waitForZero /\ id = SERVER_MANAGEMENT_PACKET_ID /\ r0 = 2) ->
  handlePacketReliable (id, p) d c = (f0, c1) ->
  handlePacketReliable (id, p1) d c1 = (f1, c2) ->
  events_of (trace c2) = events_of (trace c) ++ [(id, drop HEADER_LENGTH d)]
  /\ writes_of (trace c2) = writes_of (trace c) ++ [f0; f1]
  /\ getAckNum f0 = getSeqNum d
  /\ getAckNum f1 = getSeqNum d
  /\ drop HEADER_LENGTH f1 = replicate (length d - HEADER_LENGTH) 0
  /\ reliableState c2 = reliableState c1
  /\ packets c2 = packets c1.
Proof.
  intros Hst Hlen Hseq Hev Hno Hrun0 Hrun1.
  destruct st.
  - destruct (write (server c) e1 (setAckNum (withPayload d payload0) 0))
      as [[s' e2] w] eqn:Hwr.
    rewrite (handlePacketReliable_zero_accept c id p p1 d payload0 e1 r0 s' e2 w
               Hst Hseq Hev Hwr) in Hrun0.
    rewrite not_reset_test in Hrun0 by tauto.
    injection Hrun0 as <- <-.
    match type of Hrun1 with handlePacketReliable _ _ ?c1 = _ =>
      destruct (handlePacketReliable_reject c1 c2 id p1 d f1 waitForOne)
        as (-> & Hevs & Hws & Hrs & Hpk);
        [apply lookup_insert_eq | right; split; [done | by rewrite Hseq]
        | exact Hrun1 |]
    end.
    destruct (reject_frame_shape d 0 Hlen) as (Hack & Hpay & _).
    cbn [trace] in Hevs, Hws. rewrite Hevs, Hws, Hseq.
    split; [read_long_trace|]. split; [read_long_trace|].
    split; [apply getAckNum_setAckNum, length_withPayload, Hlen|].
    by repeat split.
  - destruct (write (server c) e1 (setAckNum (withPayload d payload0) 1))
      as [[s' e2] w] eqn:Hwr.
    rewrite (handlePacketReliable_one_accept c id p p1 d payload0 e1 r0 s' e2 w
               Hst Hseq Hev Hwr) in Hrun0.
    injection Hrun0 as <- <-.
    match type of Hrun1 with handlePacketReliable _ _ ?c1 = _ =>
      destruct (handlePacketReliable_reject c1 c2 id p1 d f1 waitForZero)
        as (-> & Hevs & Hws & Hrs & Hpk);
        [apply lookup_insert_eq | left; split; [done | by rewrite Hseq]
        | exact Hrun1 |]
    end.
    destruct (reject_frame_shape d 1 Hlen) as (Hack & Hpay & _).
    cbn [trace] in Hevs, Hws. rewrite Hevs, Hws, Hseq.
    split; [read_long_trace|]. split; [read_long_trace|].
    split; [apply getAckNum_setAckNum, length_withPayload, Hlen|].
    by repeat split.
Qed.

(** X5.  The disconnection case.  When the server management handler
    returns 2 for a frame with sequence number 0, the channel keeps waiting
    for zero, so the next frame with sequence number 0 is handled as well
    (and acknowledged with 0): the handler has then run twice. *)
Theorem X5_after_disconnection_zero_is_accepted_again (c c1 c2 : Coms)
    (p p1 p2 : Pkt) (d0 d0' f0 f1 payload0 payload1 : list Z) (e1 e3 r1 : Z) :
  reliableState c !! SERVER_MANAGEMENT_PACKET_ID = Some waitForZero ->
  (HEADER_LENGTH <= length d0')%nat ->
  getSeqNum d0 = 0 ->
  getSeqNum d0' = 0 ->
  event p (errno c) (drop HEADER_LENGTH d0) = (p1, e1, payload0, 2) ->
  handlePacketReliable (SERVER_MANAGEMENT_PACKET_ID, p) d0 c = (f0, c1) ->
  event p1 (errno c1) (drop HEADER_LENGTH d0') = (p2, e3, payload1, r1) ->
  handlePacketReliable (SERVER_MANAGEMENT_PACKET_ID, p1) d0' c1 = (f1, c2) ->
  reliableState c1 !! SERVER_MANAGEMENT_PACKET_ID = Some waitForZero
  /\ events_of (trace c2)
     = events_of (trace c)
       ++ [(SERVER_MANAGEMENT_PACKET_ID, drop HEADER_LENGTH d0);
           (SERVER_MANAGEMENT_PACKET_ID, drop HEADER_LENGTH d0')]
  /\ f1 = setAckNum (withPayload d0' payload1) 0
  /\ getAckNum f1 = 0.
Proof.
  intros Hst Hlen Hs0 Hs0' Hev Hrun0 Hev1 Hrun1.
  destruct (write (server c) e1 (setAckNum (withPayload d0 payload0) 0))
    as [[s' e2] w] eqn:Hwr.
  rewrite (handlePacketReliable_zero_accept c _ p p1 d0 payload0 e1 2 s' e2 w
             Hst Hs0 Hev Hwr) in Hrun0.
  rewrite !Z.eqb_refl in Hrun0. cbn [andb] in Hrun0.
  injection Hrun0 as <- <-. cbn [errno] in Hev1.
  match type of Hrun1 with handlePacketReliable _ _ ?st = _ =>
    destruct (write (server st) e3 (setAckNum (withPayload d0' payload1) 0))
      as [[s'' e4] w'] eqn:Hwr1;
    rewrite (handlePacketReliable_zero_accept st _ p1 p2 d0' payload1 e3 r1
               s'' e4 w') in Hrun1;
      [| apply lookup_insert_eq | exact Hs0' | exact Hev1 | exact Hwr1]
  end.
  injection Hrun1 as <- <-. cbn [reliableState trace].
  split; [apply lookup_insert_eq|]. split; [read_long_trace|].
  split; [done|]. apply getAckNum_setAckNum, length_withPayload, Hlen.
Qed.

(** X6.  Duplicate suppression over any number of frames.  While a channel
    waits for one sequence number, frames carrying any other are all
    answered (zero payload, the acknowledgment number of the branch) and
    none reaches the handler; the state table and the registry stay as they
    are however many arrive. *)
Theorem X6_unexpected_frames_never_reach_handler (frames : list (list Z)) :
  forall (c c' : Coms) (id : Z) (p : Pkt) (st : states_t)
         (replies : list (list Z)),
  packets c !! id = Some p ->
  reliableState c !! id = Some st ->
  Forall (fun d => getSeqNum d
                   <> match st with waitForZero => 0 | waitForOne => 1 end) frames ->
  handleFrames id frames c = (replies, c') ->
  replies = (fun d => setAckNum (clearPayload d)
                        (match st with waitForZero => 1 | waitForOne => 0 end))
              <$> frames
  /\ events_of (trace c') = events_of (trace c)
  /\ writes_of (trace c') = writes_of (trace c) ++ replies
  /\ reliableState c' = reliableState c
  /\ packets c' = packets c.
Proof.
  induction frames as [|d frames IH]; intros c c' id p st replies Hp Hst Hall Hrun.
  - injection Hrun as <- <-. by rewrite app_nil_r.
  - apply Forall_cons in Hall as [Hd Hall].
    cbn [handleFrames] in Hrun. revert Hrun. cbv [bind gets ret].
    rewrite Hp.
    destruct (handlePacketReliable (id, p) d c) as [reply c1] eqn:Hrun1.
    destruct (handleFrames id frames c1) as [rest c2] eqn:Hrun2.
    intros Hrun. injection Hrun as <- <-.
    destruct (handlePacketReliable_reject c c1 id p d reply st Hst) as
      (-> & Hev1 & Hw1 & Hrs1 & Hpk1); [by destruct st; [left | right] | done |].
    destruct (IH c1 c2 id p st rest) as (-> & Hev2 & Hw2 & Hrs2 & Hpk2);
      [by rewrite Hpk1 | by rewrite Hrs1 | done | done |].
    rewrite Hev2, Hev1, Hw2, Hw1, Hrs2, Hrs1, Hpk2, Hpk1, <- app_assoc.
    by repeat split.
Qed.

(** ** Facts: every iteration of [loop] *)

Lemma handlePacketUnreliable_effects (c c' : Coms) (id : Z) (p : Pkt)
    (idata frame : list Z) :
  handlePacketUnreliable (id, p) idata c = (frame, c') ->
  writes_of (trace c') = writes_of (trace c) ++ [frame]
  /\ events_of (trace c') = events_of (trace c) ++ [(id, drop HEADER_LENGTH idata)]
  /\ (exists p' payload', packets c' = <[id := p']> (packets c)
        /\ frame = withPayload idata payload')
  /\ ensuredPackets c' = ensuredPackets c
  /\ reliableState c' = reliableState c.
Proof.
  intros Hrun.
  destruct (event p (errno c) (drop HEADER_LENGTH idata))
    as [[[p' e1] payload'] r] eqn:Hev.
  destruct (write (server c) e1 (withPayload idata payload'))
    as [[s' e2] w] eqn:Hwr.
  rewrite (handlePacketUnreliable_run c id p p' idata payload' e1 r s' e2 w
             Hev Hwr) in Hrun.
  injection Hrun as <- <-. cbn [packets reliableState ensuredPackets].
  split; [read_trace|]. split; [read_trace|].
  split; [by exists p', payload' | done].
Qed.

(** The three ways an iteration can go: no frame, a frame for an unknown
    identifier, a frame for a registered handler. *)
Lemma loop_cases (c : Coms) :
  (incoming c = None
   /\ exists s e tr, loop c = (1, mkComs s (packets c) (reliableState c)
                                    (ensuredPackets c) e (trace c ++ tr))
        /\ writes_of tr = [] /\ events_of tr = [])
  \/ (exists data, incoming c = Some data
        /\ packets c !! getPacketId data = None
        /\ exists s tr, loop c = (BOWLER_ERROR,
                                  mkComs s (packets c) (reliableState c)
                                    (ensuredPackets c) ENODEV (trace c ++ tr))
             /\ writes_of tr = [clearPayload data] /\ events_of tr = [])
  \/ (exists data p s e, incoming c = Some data
        /\ packets c !! getPacketId data = Some p
        /\ loop c =
           (1, snd ((if isReliable p then handlePacketReliable
                     else handlePacketUnreliable)
                      (getPacketId data, p) data
                      (mkComs s (packets c) (reliableState c) (ensuredPackets c) e
                         (trace c ++ [CallIsDataAvailable; CallRead]))))).
Proof.
  unfold incoming.
  destruct (isDataAvailable (server c) (errno c)) as [[[s1 e1] r1] b] eqn:Hpeek.
  destruct (decide (r1 = BOWLER_ERROR)) as [-> | Hr1].
  { left. rewrite Z.eqb_refl. split; [done|].
    eexists _, _, _. split; [apply (loop_peek_error c s1 e1 b Hpeek)|].
    unfold log_if. by destruct (negb (e1 =? EWOULDBLOCK)). }
  pose proof Hr1 as Hr1b. apply Z.eqb_neq in Hr1b. rewrite Hr1b. cbn [negb andb].
  destruct b.
  2:{ left. split; [done|]. eexists _, _, _.
      split; [apply (loop_idle c s1 e1 r1 Hpeek Hr1) | done]. }
  destruct (read s1 e1) as [[[s2 e2] r2] data] eqn:Hread.
  destruct (decide (r2 = BOWLER_ERROR)) as [-> | Hr2].
  { left. rewrite Z.eqb_refl. split; [done|]. eexists _, _, _.
    split; [apply (loop_read_error c s1 s2 e1 r1 e2 data Hpeek Hr1 Hread) | done]. }
  pose proof Hr2 as Hr2b. apply Z.eqb_neq in Hr2b. rewrite Hr2b. cbn [negb].
  right. destruct (packets c !! getPacketId data) as [p|] eqn:Hp.
  - right. exists data, p, s2, e2. split; [done|]. split; [done|].
    apply (loop_dispatch c s1 s2 e1 r1 e2 r2 data p Hpeek Hr1 Hread Hr2 Hp).
  - left. exists data. split; [done|]. split; [done|].
    destruct (write s2 e2 (clearPayload data)) as [[s3 e3] w] eqn:Hwr.
    eexists _, _.
    split; [apply (loop_unknown_id c s1 s2 s3 e1 r1 e2 r2 e3 w data
                     Hpeek Hr1 Hread Hr2 Hp Hwr)|].
    unfold log_if. by destruct (w =? BOWLER_ERROR).
Qed.

(** X7.  An iteration that finds no data (the readiness check succeeds and
    reports none, or fails with [EWOULDBLOCK]) returns 1 and does nothing
    else: no read, no write, no diagnostic; the tables and the queue are as
    before. *)
Theorem X7_no_data_iteration_is_silent (c : Coms) (s1 : Srv) (e1 r1 : Z) (b : bool) :
  isDataAvailable (server c) (errno c) = (s1, e1, r1, b) ->
  (r1 = BOWLER_ERROR /\ e1 = EWOULDBLOCK) \/ (r1 <> BOWLER_ERROR /\ b = false) ->
  loop c = (1, mkComs s1 (packets c) (reliableState c) (ensuredPackets c) e1
                 (trace c ++ [CallIsDataAvailable])).
Proof.
  intros Hpeek [[-> ->] | [Hr1 ->]].
  - rewrite (loop_peek_error c s1 EWOULDBLOCK b Hpeek). reflexivity.
  - apply (loop_idle c s1 e1 r1 Hpeek Hr1).
Qed.

(** X8.  What [loop] returns.  It returns 1 or [BOWLER_ERROR], and (the two
    being different) [BOWLER_ERROR] exactly when a frame was read whose
    identifier has no handler. *)
Theorem X8_loop_fails_only_on_unknown_id (c : Coms) :
  BOWLER_ERROR <> 1 ->
  (fst (loop c) = 1 \/ fst (loop c) = BOWLER_ERROR)
  /\ (fst (loop c) = BOWLER_ERROR <->
      exists data, incoming c = Some data /\ packets c !! getPacketId data = None).
Proof.
  intros Hbe.
  destruct (loop_cases c) as
    [(Hin & s & e & tr & Hrun & _)
    |[(data & Hin & Hp & s & tr & Hrun & _)
     |(data & p & s & e & Hin & Hp & Hrun)]]; rewrite Hrun; cbn [fst].
  - split; [by left|]. split; [congruence|].
    intros (data & Hd & _). congruence.
  - split; [by right|]. split; [|done]. intros _. by exists data.
  - split; [by left|]. split; [congruence|].
    intros (data' & Hd & Hnone). congruence.
Qed.

Lemma header_setAckNum_withPayload (idata payload : list Z) (a : Z) :
  (HEADER_LENGTH <= length idata)%nat ->
  getPacketId (setAckNum (withPayload idata payload) a) = getPacketId idata
  /\ getSeqNum (setAckNum (withPayload idata payload) a) = getSeqNum idata.
Proof.
  unfold withPayload, setAckNum, getPacketId, getSeqNum, HEADER_LENGTH.
  destruct idata as [|x [|y [|z d]]]; simpl; intros; try lia;
    split; reflexivity.
Qed.

(** X9.  Every frame read is answered exactly once.  When an iteration gets
    a frame (of at least the header length), it writes one frame, whichever
    path it takes, and the reply carries the identifier and the sequence
    number of the frame read; at most one handler invocation takes place,
    for the identifier of the frame and on its payload region. *)
Theorem X9_one_reply_per_frame (c c' : Coms) (data : list Z) (r : Z) :
  incoming c = Some data ->
  (HEADER_LENGTH <= length data)%nat ->
  loop c = (r, c') ->
  exists reply,
    writes_of (trace c') = writes_of (trace c) ++ [reply]
    /\ getPacketId reply = getPacketId data
    /\ getSeqNum reply = getSeqNum data
    /\ (events_of (trace c') = events_of (trace c)
        \/ events_of (trace c')
           = events_of (trace c) ++ [(getPacketId data, drop HEADER_LENGTH data)]).
Proof.
  intros Hin Hlen Hrun.
  destruct (loop_cases c) as
    [(Hin' & _)
    |[(data' & Hin' & Hp & s & tr & Hrun' & Hw & Hev)
     |(data' & p & s & e & Hin' & Hp & Hrun')]]; [congruence | |].
  - assert (data' = data) as -> by congruence.
    rewrite Hrun' in Hrun. injection Hrun as <- <-. cbn [trace].
    exists (clearPayload data).
    destruct (header_accessors_clearPayload data) as (Hid & Hseq & _).
    rewrite writes_of_app, events_of_app, Hw, Hev, app_nil_r.
    split; [done|]. split; [done|]. split; [done | by left].
  - assert (data' = data) as -> by congruence.
    rewrite Hrun' in Hrun. injection Hrun as <- <-.
    destruct (isReliable p).
    + match goal with |- context [handlePacketReliable ?i data ?c2] =>
        destruct (handlePacketReliable i data c2) as [frame c3] eqn:Hh end.
      apply handlePacketReliable_effects in Hh
        as (Hw & Hcase & _). cbn [snd trace] in *.
      rewrite writes_of_app, events_of_app in *. cbn in Hw, Hcase.
      rewrite app_nil_r in *. exists frame.
      destruct Hcase as [(Hev & _ & a & ->) | (Hev & p' & payload' & a & _ & ->)].
      * destruct (reject_frame_shape data a Hlen) as (_ & _ & Hid & Hseq).
        split; [done|]. split; [done|]. split; [done | by left].
      * destruct (header_setAckNum_withPayload data payload' a Hlen) as [Hid Hseq].
        split; [done|]. split; [done|]. split; [done | by right].
    + match goal with |- context [handlePacketUnreliable ?i data ?c2] =>
        destruct (handlePacketUnreliable i data c2) as [frame c3] eqn:Hh end.
      apply handlePacketUnreliable_effects in Hh
        as (Hw & Hev & (p' & payload' & _ & ->) & _). cbn [snd trace] in *.
      rewrite writes_of_app, events_of_app in *. cbn in Hw, Hev.
      rewrite app_nil_r in *. exists (withPayload data payload').
      destruct (header_withPayload data payload' Hlen) as (_ & _ & Hid & Hseq & _).
      split; [done|]. split; [done|]. split; [done | by right].
Qed.

Lemma no_new_event (old : list (Z * list Z)) (x : Z * list Z) :
  old ++ [x] = old -> False.
Proof.
  intros Heq. apply (f_equal length) in Heq.
  rewrite length_app in Heq. cbn in Heq. lia.
Qed.

(** A call of [handlePacketReliable] that does not run the handler. *)
Lemma handlePacketReliable_no_event (c c' : Coms) (id : Z) (p : Pkt)
    (idata frame : list Z) :
  handlePacketReliable (id, p) idata c = (frame, c') ->
  events_of (trace c') = events_of (trace c) ->
  packets c' = packets c
  /\ ensuredPackets c' = ensuredPackets c
  /\ (reliableState c' = reliableState c
      \/ (reliableState c !! id = None
          /\ reliableState c' = <[id := waitForZero]> (reliableState c))).
Proof.
  assert (Hgen : forall c0 : Coms, is_Some (reliableState c0 !! id) ->
            handlePacketReliable (id, p) idata c0 = (frame, c') ->
            events_of (trace c') = events_of (trace c0) ->
            packets c' = packets c0 /\ reliableState c' = reliableState c0).
  { intros c0 [st Hst] Hrun Hev.
    destruct (decide (getSeqNum idata
                      = match st with waitForZero => 0 | waitForOne => 1 end))
      as [Hseq | Hseq].
    - exfalso.
      destruct (event p (errno c0) (drop HEADER_LENGTH idata))
        as [[[p' e1] payload'] r] eqn:Hevent.
      destruct st.
      + destruct (write (server c0) e1 (setAckNum (withPayload idata payload') 0))
          as [[s' e2] w] eqn:Hwr.
        rewrite (handlePacketReliable_zero_accept c0 id p p' idata payload'
                   e1 r s' e2 w Hst Hseq Hevent Hwr) in Hrun.
        injection Hrun as <- <-. revert Hev. read_trace; apply no_new_event.
      + destruct (write (server c0) e1 (setAckNum (withPayload idata payload') 1))
          as [[s' e2] w] eqn:Hwr.
        rewrite (handlePacketReliable_one_accept c0 id p p' idata payload'
                   e1 r s' e2 w Hst Hseq Hevent Hwr) in Hrun.
        injection Hrun as <- <-. revert Hev. read_trace; apply no_new_event.
    - destruct (handlePacketReliable_reject c0 c' id p idata frame st Hst)
        as (_ & _ & _ & Hrs & Hpk); [by destruct st; [left | right] | done |].
      done. }
  intros Hrun Hev.
  pose proof (handlePacketReliable_effects c c' id p idata frame Hrun)
    as (_ & _ & Hq & _).
  destruct (reliableState c !! id) as [st|] eqn:Hst.
  - destruct (Hgen c) as [Hpk Hrs]; [rewrite Hst; eauto | done | done |].
    split; [done|]. split; [done | by left].
  - rewrite (handlePacketReliable_missing_state c id p idata Hst) in Hrun.
    apply Hgen in Hrun as [Hpk Hrs];
      [| cbn [reliableState set_reliableState]; rewrite lookup_insert_eq; eauto
       | exact Hev].
    cbn [packets reliableState set_reliableState] in Hpk, Hrs.
    split; [done|]. split; [done|]. right. by split.
Qed.

(** X10.  An iteration that runs no handler.  When [loop] returns without
    having invoked a handler (no frame was read, the identifier was unknown,
    or a reliable channel got a sequence number it was not waiting for), the
    registry and the queue of factories are exactly as before, and so is
    every channel state; at most the missing state of the identifier of the
    frame was created, as [waitForZero]. *)
Theorem X10_iteration_without_handler_keeps_tables (c c' : Coms) (r : Z) :
  loop c = (r, c') ->
  events_of (trace c') = events_of (trace c) ->
  packets c' = packets c
  /\ ensuredPackets c' = ensuredPackets c
  /\ (forall j, is_Some (reliableState c !! j) ->
        reliableState c' !! j = reliableState c !! j)
  /\ (reliableState c' = reliableState c
      \/ exists data, incoming c = Some data
           /\ reliableState c !! getPacketId data = None
           /\ reliableState c'
              = <[getPacketId data := waitForZero]> (reliableState c)).
Proof.
  intros Hrun Hev.
  destruct (loop_cases c) as
    [(Hin & s & e & tr & Hrun' & _)
    |[(data & Hin & Hp & s & tr & Hrun' & _)
     |(data & p & s & e & Hin & Hp & Hrun')]];
    rewrite Hrun' in Hrun.
  - injection Hrun as <- <-. cbn [packets ensuredPackets reliableState].
    split; [done|]. split; [done|]. split; [done | by left].
  - injection Hrun as <- <-. cbn [packets ensuredPackets reliableState].
    split; [done|]. split; [done|]. split; [done | by left].
  - injection Hrun as <- <-. revert Hev. destruct (isReliable p).
    + match goal with |- context [handlePacketReliable ?i data ?c2] =>
        destruct (handlePacketReliable i data c2) as [frame c3] eqn:Hh end.
      cbn [snd]. intros Hev.
      apply handlePacketReliable_no_event in Hh as (Hpk & Hq & Hrs).
      2:{ rewrite Hev. cbn [trace]. rewrite events_of_app. cbn.
          by rewrite app_nil_r. }
      cbn [packets ensuredPackets reliableState] in Hpk, Hq, Hrs.
      split; [done|]. split; [done|].
      destruct Hrs as [-> | [Hnone ->]].
      * split; [done | by left].
      * split.
        -- intros j [st Hj]. rewrite lookup_insert_ne; [done|]. congruence.
        -- right. by exists data.
    + match goal with |- context [handlePacketUnreliable ?i data ?c2] =>
        destruct (handlePacketUnreliable i data c2) as [frame c3] eqn:Hh end.
      cbn [snd]. intros Hev. exfalso.
      apply handlePacketUnreliable_effects in Hh as (_ & Hev' & _).
      cbn [trace] in Hev'. rewrite events_of_app in Hev'. cbn in Hev'.
      rewrite app_nil_r, Hev in Hev'. symmetry in Hev'.
      by apply no_new_event in Hev'.
Qed.

(** ** Facts: the registry as a whole *)

Lemma registry_ok_addPacket (c : Coms) (ipacket : Pkt) :
  registry_ok c -> registry_ok (snd (addPacket ipacket c)).
Proof.
  intros Hok. destruct (packets c !! getId ipacket) as [q|] eqn:Hq.
  - rewrite (addPacket_used c ipacket q Hq). exact Hok.
  - rewrite (addPacket_free c ipacket Hq). cbn [snd].
    intros id p. cbn [packets reliableState].
    destruct (decide (getId ipacket = id)) as [<- | Hne].
    + rewrite lookup_insert_eq. intros [= <-]. split; [done|].
      intros ->. rewrite lookup_insert_eq. eauto.
    + rewrite lookup_insert_ne by done. intros Hp.
      destruct (Hok id p Hp) as [Hid Hst]. split; [done|].
      intros Hrel. destruct (isReliable ipacket); [|auto].
      rewrite lookup_insert_ne by done. auto.
Qed.

Lemma registry_ok_drain (elems : list (unit -> Pkt)) :
  forall (i : nat) (c : Coms),
  registry_ok c -> registry_ok (snd (addEnsuredPackets_from i elems c)).
Proof.
  induction elems as [|g elems IH]; intros i c Hok; [exact Hok|].
  cbn [addEnsuredPackets_from]. run_monad.
  assert (Hok1 : registry_ok (snd (addPacket (g tt) (emit (CallFactory i) c)))).
  { apply registry_ok_addPacket. exact Hok. }
  destruct (addPacket (g tt) (emit (CallFactory i) c)) as [r c1].
  cbn [snd] in Hok1. destruct (r =? BOWLER_ERROR); [exact Hok1|].
  apply IH, Hok1.
Qed.

(** X11.  The registry invariant.  After the constructor, and after any
    [addPacket], [removePacket], [addEnsuredPacket] or [addEnsuredPackets]
    on an object that has it (whether the call succeeds or not), every
    handler is stored under its own identifier and every reliable handler
    has a channel state. *)
Theorem X11_registry_invariant :
  (forall (iserver : Srv) (management : Pkt) (e : Z),
     registry_ok (DefaultBowlerComs iserver management e))
  /\ (forall (c : Coms) (ipacket : Pkt),
        registry_ok c -> registry_ok (snd (addPacket ipacket c)))
  /\ (forall (c : Coms) (iid : Z),
        registry_ok c -> registry_ok (snd (removePacket iid c)))
  /\ (forall (c : Coms) (iaddPacket : unit -> Pkt),
        registry_ok c -> registry_ok (snd (addEnsuredPacket iaddPacket c)))
  /\ (forall (c : Coms),
        registry_ok c -> registry_ok (snd (addEnsuredPackets c))).
Proof.
  split.
  { intros iserver management e. apply registry_ok_addPacket.
    intros id p. cbn [packets]. by rewrite lookup_empty. }
  split; [apply registry_ok_addPacket|]. split.
  { intros c iid Hok id p. cbn. intros Hp.
    apply lookup_delete_Some in Hp as [_ Hp]. by apply Hok. }
  split; [intros c f Hok; exact Hok|].
  intros c Hok. cbv [addEnsuredPackets bind gets]. by apply registry_ok_drain.
Qed.

Lemma initialised_all_cons (g : unit -> Pkt) (elems : list (unit -> Pkt))
    (m : gmap Z states_t) :
  initialised_all (g :: elems) m
  = initialised_all elems
      (if isReliable (g tt) then <[factory_id g := waitForZero]> m else m).
Proof. reflexivity. Qed.

(** The loop of [addEnsuredPackets] on a queue that registers completely. *)
Lemma addEnsuredPackets_from_success (elems : list (unit -> Pkt)) :
  BOWLER_ERROR <> 1 ->
  forall (i : nat) (c : Coms),
  NoDup (factory_id <$> elems) ->
  (forall g, g ∈ elems -> packets c !! factory_id g = None) ->
  addEnsuredPackets_from i elems c =
    (1, mkComs (server c) (stored_all elems (packets c))
          (initialised_all elems (reliableState c)) (ensuredPackets c) (errno c)
          (trace c ++ (CallFactory <$> seq i (length elems)))).
Proof.
  intros Hbe. induction elems as [|g elems IH]; intros i c Hnd Hfree.
  - cbn. rewrite app_nil_r. by destruct c.
  - cbn [addEnsuredPackets_from]. run_monad.
    rewrite fmap_cons in Hnd. apply NoDup_cons in Hnd as [Hg Hnd].
    assert (Hgfree : packets (emit (CallFactory i) c) !! getId (g tt) = None).
    { apply Hfree. apply elem_of_cons; by left. }
    rewrite (addPacket_free _ (g tt) Hgfree).
    apply Z.eqb_neq in Hbe. rewrite Z.eqb_sym, Hbe.
    rewrite IH; cbn [server packets reliableState ensuredPackets errno trace emit].
    + rewrite <- app_assoc. reflexivity.
    + done.
    + intros g' Hg'. rewrite lookup_insert_ne.
      * apply Hfree. apply elem_of_cons; by right.
      * intros Heq. apply Hg. fold (factory_id g) in Heq. rewrite Heq.
        by apply list_elem_of_fmap_2.
Qed.

(** X12.  A drain that succeeds.  When the handlers of the queued factories
    have free, pairwise different identifiers, [addEnsuredPackets] runs
    every factory once, in queue order, registers all the handlers (the
    reliable ones waiting for zero), returns 1 and leaves [errno] and the
    queue as they were; on an empty queue that is: nothing but returning 1.
    [BOWLER_ERROR] is taken to differ from 1. *)
Theorem X12_drain_registers_all (c c' : Coms) (r : Z) :
  BOWLER_ERROR <> 1 ->
  NoDup (factory_id <$> ensuredPackets c) ->
  (forall g, g ∈ ensuredPackets c -> packets c !! factory_id g = None) ->
  addEnsuredPackets c = (r, c') ->
  r = 1 /\ errno c' = errno c
  /\ factories_of (trace c')
     = factories_of (trace c) ++ seq 0 (length (ensuredPackets c))
  /\ packets c' = stored_all (ensuredPackets c) (packets c)
  /\ reliableState c' = initialised_all (ensuredPackets c) (reliableState c)
  /\ (forall g, g ∈ ensuredPackets c -> packets c' !! factory_id g = Some (g tt))
  /\ (forall g, g ∈ ensuredPackets c -> isReliable (g tt) = true ->
        reliableState c' !! factory_id g = Some waitForZero)
  /\ ensuredPackets c' = ensuredPackets c.
Proof.
  intros Hbe Hnd Hfree Hrun.
  cbv [addEnsuredPackets bind gets] in Hrun.
  rewrite (addEnsuredPackets_from_success _ Hbe 0%nat c Hnd Hfree) in Hrun.
  injection Hrun as <- <-.
  cbn [packets reliableState ensuredPackets errno trace].
  split; [done|]. split; [done|].
  split; [by rewrite factories_of_app, factories_of_calls|].
  split; [done|]. split; [done|].
  split; [intros g Hg; by apply stored_all_lookup|].
  split; [|done].
  clear Hfree. generalize (reliableState c) as m. revert Hnd.
  induction (ensuredPackets c) as [|g0 elems IH]; intros Hnd m g Hg Hrel.
  - by apply elem_of_nil in Hg.
  - rewrite fmap_cons in Hnd. apply NoDup_cons in Hnd as [Hg0 Hnd].
    rewrite initialised_all_cons.
    apply elem_of_cons in Hg as [-> | Hg]; [|by apply IH].
    rewrite Hrel. clear IH Hnd.
    assert (Hkeep : forall (l : list (unit -> Pkt)) (m' : gmap Z states_t),
              factory_id g0 ∉ factory_id <$> l ->
              initialised_all l m' !! factory_id g0 = m' !! factory_id g0).
    { induction l as [|g1 l IHl]; intros m' Hnot; [done|].
      rewrite fmap_cons in Hnot. apply not_elem_of_cons in Hnot as [Hne Hnot].
      rewrite initialised_all_cons, IHl by done.
      destruct (isReliable (g1 tt)); [|done]. by apply lookup_insert_ne. }
    rewrite Hkeep by done. apply lookup_insert_eq.
Qed.

(** X13.  Replacing a handler.  [removePacket] followed by [addPacket] of a
    handler with that identifier always succeeds, whatever was registered
    before: the identifier then maps to the new handler, a reliable one
    starts waiting for zero whatever state its predecessor left, and no
    other identifier is affected. *)
Theorem X13_remove_then_add_replaces (c c1 c2 : Coms) (ipacket : Pkt) (r : Z) :
  removePacket (getId ipacket) c = (tt, c1) ->
  addPacket ipacket c1 = (r, c2) ->
  r = 1
  /\ packets c2 !! getId ipacket = Some ipacket
  /\ (isReliable ipacket = true ->
      reliableState c2 !! getId ipacket = Some waitForZero)
  /\ (isReliable ipacket = false -> reliableState c2 = reliableState c)
  /\ (forall j, j <> getId ipacket ->
        packets c2 !! j = packets c !! j
        /\ reliableState c2 !! j = reliableState c !! j)
  /\ errno c2 = errno c.
Proof.
  rewrite removePacket_run. intros Hrm Hadd. injection Hrm as <-.
  rewrite addPacket_free in Hadd by apply lookup_delete_eq.
  injection Hadd as <- <-. cbn [packets reliableState errno].
  split; [done|]. split; [apply lookup_insert_eq|].
  split; [intros ->; apply lookup_insert_eq|].
  split; [by intros ->|]. split; [|done].
  intros j Hj. rewrite lookup_insert_ne, lookup_delete_ne by done.
  split; [done|]. destruct (isReliable ipacket); [|done].
  by apply lookup_insert_ne.
Qed.

(** X14.  An ensured packet, once drained, is registered exactly as a direct
    [addPacket] would have registered it: on an object with an empty queue,
    [addEnsuredPacket] followed by [addEnsuredPackets] returns what
    [addPacket] of the built handler returns and leaves the same registry,
    state table and [errno]; the factory stays queued. *)
Theorem X14_enqueue_then_drain_is_addPacket (c : Coms) (iaddPacket : unit -> Pkt) :
  ensuredPackets c = [] ->
  fst (addEnsuredPackets (snd (addEnsuredPacket iaddPacket c)))
  = fst (addPacket (iaddPacket tt) c)
  /\ packets (snd (addEnsuredPackets (snd (addEnsuredPacket iaddPacket c))))
     = packets (snd (addPacket (iaddPacket tt) c))
  /\ reliableState (snd (addEnsuredPackets (snd (addEnsuredPacket iaddPacket c))))
     = reliableState (snd (addPacket (iaddPacket tt) c))
  /\ errno (snd (addEnsuredPackets (snd (addEnsuredPacket iaddPacket c))))
     = errno (snd (addPacket (iaddPacket tt) c))
  /\ ensuredPackets (snd (addEnsuredPackets (snd (addEnsuredPacket iaddPacket c))))
     = [iaddPacket].
Proof.
  intros Hq.
  cbv [addEnsuredPackets addEnsuredPacket bind gets modify].
  cbn [snd ensuredPackets set_ensuredPackets]. rewrite Hq. cbn [app].
  cbn [addEnsuredPackets_from]. run_monad.
  destruct (packets c !! getId (iaddPacket tt)) as [q|] eqn:Hp.
  - rewrite (addPacket_used c _ q Hp).
    match goal with |- context [addPacket ?h ?c0] =>
      rewrite (addPacket_used c0 h q Hp) end.
    rewrite Z.eqb_refl. cbn. done.
  - rewrite (addPacket_free c _ Hp).
    match goal with |- context [addPacket ?h ?c0] =>
      rewrite (addPacket_free c0 h Hp) end.
    destruct (1 =? BOWLER_ERROR) eqn:Hbe.
    + apply Z.eqb_eq in Hbe. cbn. by rewrite <- Hbe.
    + cbn. done.
Qed.

(** ** Facts: the list of identifiers and the constructor *)

Lemma StronglySorted_filter_le (P : Z -> Prop) `{forall x, Decision (P x)}
    (l : list Z) :
  StronglySorted Z.le l -> StronglySorted Z.le (filter P l).
Proof.
  induction 1 as [|x l Hl IH Hx]; [constructor|].
  rewrite filter_cons. destruct (decide (P x)); [|done].
  constructor; [done|]. apply Forall_forall. intros y Hy.
  apply list_elem_of_filter in Hy as [_ Hy].
  by apply (proj1 (Forall_forall _ _) Hx).
Qed.

(** X15.  [getAllPacketIDs] on a registry that is not empty returns, without
    changing the object, the registered identifiers other than the server
    management identifier, each once, in ascending order. *)
Theorem X15_getAllPacketIDs_lists_user_ids (c : Coms) :
  packets c <> ∅ ->
  exists ids, getAllPacketIDs c = (Some ids, c)
    /\ (forall id, id ∈ ids <->
          is_Some (packets c !! id) /\ id <> SERVER_MANAGEMENT_PACKET_ID)
    /\ (SERVER_MANAGEMENT_PACKET_ID ∉ ids)
    /\ NoDup ids
    /\ StronglySorted Z.le ids.
Proof.
  intros Hne. unfold getAllPacketIDs.
  destruct (decide (size (packets c) = 0%nat)) as [Hsz | _].
  { by apply map_size_empty_iff in Hsz. }
  eexists. split; [reflexivity|].
  assert (Hmem : forall id,
            id ∈ filter (fun id => id <> SERVER_MANAGEMENT_PACKET_ID)
                   (merge_sort Z.le ((map_to_list (packets c)).*1))
            <-> is_Some (packets c !! id) /\ id <> SERVER_MANAGEMENT_PACKET_ID).
  { intros id. rewrite list_elem_of_filter, merge_sort_Permutation.
    rewrite list_elem_of_fmap. split.
    - intros [Hid ([k v] & -> & Hkv)]. apply elem_of_map_to_list in Hkv.
      split; [eauto | done].
    - intros [[v Hv] Hid]. split; [done|]. exists (id, v).
      split; [done | by apply elem_of_map_to_list]. }
  split; [exact Hmem|]. split; [intros Hin; apply Hmem in Hin; tauto|].
  split.
  - apply NoDup_filter. rewrite merge_sort_Permutation.
    apply NoDup_fst_map_to_list.
  - apply StronglySorted_filter_le, StronglySorted_merge_sort; apply _.
Qed.

(** [getAllPacketIDs] returns no list exactly when the registry is empty
    (the size it reserves is then [0 - 1] in unsigned arithmetic). *)
Lemma getAllPacketIDs_none_iff_empty (c : Coms) :
  fst (getAllPacketIDs c) = None <-> packets c = ∅.
Proof.
  unfold getAllPacketIDs.
  destruct (decide (size (packets c) = 0%nat)) as [Hsz | Hsz]; cbn [fst].
  - split; [intros _; by apply map_size_empty_iff | done].
  - split; [done|]. intros Hm. by apply map_size_empty_iff in Hm.
Qed.

(** X16.  Removing the only registered handler, which [removePacket] does
    for the server management identifier like for any other, leaves an
    object on which [getAllPacketIDs] returns no list: the registry is empty
    and the size it reserves is [0 - 1] in unsigned arithmetic. *)
Theorem X16_getAllPacketIDs_after_last_removal (c c1 : Coms) (iid : Z) (p : Pkt) :
  packets c = {[ iid := p ]} ->
  removePacket iid c = (tt, c1) ->
  packets c1 = ∅ /\ fst (getAllPacketIDs c1) = None.
Proof.
  rewrite removePacket_run. intros Hp Hrm. injection Hrm as <-.
  assert (Hempty : delete iid (packets c) = ∅)
    by (rewrite Hp; apply delete_singleton_eq).
  split; [exact Hempty|]. by apply getAllPacketIDs_none_iff_empty.
Qed.

Lemma DefaultBowlerComs_run (iserver : Srv) (management : Pkt) (e : Z) :
  DefaultBowlerComs iserver management e =
    mkComs iserver {[ getId management := management ]}
      (if isReliable management then {[ getId management := waitForZero ]} else ∅)
      [] e [].
Proof.
  unfold DefaultBowlerComs. rewrite addPacket_free by apply lookup_empty.
  reflexivity.
Qed.

(** X17.  The constructed object.  With a server management handler that
    carries the server management identifier, the new object has this one
    handler registered (waiting for zero if it is reliable) and an empty
    queue; [getAllPacketIDs] returns the empty list; a later [addPacket]
    with the server management identifier returns [BOWLER_ERROR]; and after
    [removePacket] of that identifier the registry is empty. *)
Theorem X17_constructor_registers_management (iserver : Srv) (management : Pkt)
    (e : Z) :
  getId management = SERVER_MANAGEMENT_PACKET_ID ->
  packets (DefaultBowlerComs iserver management e) !! SERVER_MANAGEMENT_PACKET_ID
    = Some management
  /\ (isReliable management = true ->
      reliableState (DefaultBowlerComs iserver management e)
        !! SERVER_MANAGEMENT_PACKET_ID = Some waitForZero)
  /\ ensuredPackets (DefaultBowlerComs iserver management e) = []
  /\ fst (getAllPacketIDs (DefaultBowlerComs iserver management e)) = Some []
  /\ (forall ipacket, getId ipacket = SERVER_MANAGEMENT_PACKET_ID ->
        fst (addPacket ipacket (DefaultBowlerComs iserver management e))
        = BOWLER_ERROR)
  /\ packets (snd (removePacket SERVER_MANAGEMENT_PACKET_ID
                     (DefaultBowlerComs iserver management e))) = ∅.
Proof.
  intros Hid. rewrite DefaultBowlerComs_run, Hid.
  cbn [packets reliableState ensuredPackets].
  split; [apply lookup_singleton_eq|].
  split; [intros ->; apply lookup_singleton_eq|]. split; [done|].
  split.
  { unfold getAllPacketIDs. cbn [packets].
    rewrite map_size_singleton. cbn [fst]. rewrite decide_False by done.
    cbn [fst]. rewrite map_to_list_singleton. cbn.
    by rewrite decide_False by tauto. }
  split.
  { intros ipacket Hip.
    rewrite (addPacket_used _ ipacket management); [done|].
    cbn [packets]. rewrite Hip. apply lookup_singleton_eq. }
  cbn. apply delete_singleton_eq.
Qed.

(** ** Facts: registration and dispatch together *)

(** X18.  A newly registered reliable handler expects sequence number 0,
    even if the state table still held a state for its identifier.  After a
    successful [addPacket], an iteration that reads a frame for the handler
    returns 1; the frame is handled and acknowledged with 0 when its
    sequence number is 0, and answered with a zero payload and
    acknowledgment number 1, without running the handler, otherwise. *)
Theorem X18_fresh_reliable_channel_expects_zero (c c1 c2 : Coms) (ipacket : Pkt)
    (data : list Z) (r r' : Z) :
  packets c !! getId ipacket = None ->
  isReliable ipacket = true ->
  addPacket ipacket c = (r, c1) ->
  incoming c1 = Some data ->
  getPacketId data = getId ipacket ->
  (HEADER_LENGTH <= length data)%nat ->
  loop c1 = (r', c2) ->
  r = 1 /\ r' = 1
  /\ (getSeqNum data = 0 ->
        events_of (trace c2)
        = events_of (trace c1) ++ [(getId ipacket, drop HEADER_LENGTH data)]
        /\ exists reply, writes_of (trace c2) = writes_of (trace c1) ++ [reply]
             /\ getAckNum reply = 0)
  /\ (getSeqNum data <> 0 ->
        events_of (trace c2) = events_of (trace c1)
        /\ writes_of (trace c2)
           = writes_of (trace c1) ++ [setAckNum (clearPayload data) 1]
        /\ reliableState c2 !! getId ipacket = Some waitForZero).
Proof.
  intros Hfree Hrel Hadd Hin Hid Hlen Hrun.
  rewrite (addPacket_free c ipacket Hfree), Hrel in Hadd.
  injection Hadd as <- <-. split; [done|].
  match type of Hrun with loop ?c1 = _ =>
    destruct (loop_cases c1) as
      [(Hin' & _)
      |[(data' & Hin' & Hp & _)
       |(data' & p & s & e & Hin' & Hp & Hrun')]] end; [congruence | |].
  { assert (data' = data) as -> by congruence.
    cbn [packets] in Hp. by rewrite Hid, lookup_insert_eq in Hp. }
  assert (data' = data) as -> by congruence.
  cbn [packets reliableState ensuredPackets trace] in Hp, Hrun'.
  rewrite Hid, lookup_insert_eq in Hp. injection Hp as <-.
  rewrite Hrel, Hid in Hrun'. rewrite Hrun' in Hrun.
  injection Hrun as <- <-. split; [done|].
  cbn [trace].
  match goal with |- context [handlePacketReliable ?i data ?st] =>
    set (c0 := st) end.
  assert (Hst : reliableState c0 !! getId ipacket = Some waitForZero)
    by apply lookup_insert_eq.
  split.
  - intros Hseq.
    destruct (event ipacket (errno c0) (drop HEADER_LENGTH data))
      as [[[p' e1] payload'] r0] eqn:Hev.
    destruct (write (server c0) e1 (setAckNum (withPayload data payload') 0))
      as [[s' e2] w] eqn:Hwr.
    rewrite (handlePacketReliable_zero_accept c0 (getId ipacket) ipacket p' data payload'
               e1 r0 s' e2 w Hst Hseq Hev Hwr).
    subst c0. cbn [snd trace]. split; [read_long_trace|].
    exists (setAckNum (withPayload data payload') 0).
    split; [read_long_trace|].
    apply getAckNum_setAckNum, length_withPayload, Hlen.
  - intros Hseq.
    destruct (write (server c0) (errno c0) (setAckNum (clearPayload data) 1))
      as [[s' e2] w] eqn:Hwr.
    rewrite (handlePacketReliable_zero_reject c0 (getId ipacket) ipacket data s' e2 w
               Hst Hseq Hwr).
    subst c0. cbn [snd reliableState trace]. split; [read_long_trace|].
    split; [read_long_trace | apply lookup_insert_eq].
Qed.

(** X19.  A removed handler is no longer served.  After [removePacket], an
    iteration that reads a frame with the removed identifier runs no handler,
    writes the frame back with a zero payload and returns [BOWLER_ERROR]
    with [errno] set to [ENODEV]. *)
Theorem X19_removed_handler_is_unknown (c c1 c2 : Coms) (iid r : Z)
    (data : list Z) :
  removePacket iid c = (tt, c1) ->
  incoming c1 = Some data ->
  getPacketId data = iid ->
  loop c1 = (r, c2) ->
  r = BOWLER_ERROR /\ errno c2 = ENODEV
  /\ events_of (trace c2) = events_of (trace c1)
  /\ writes_of (trace c2) = writes_of (trace c1) ++ [clearPayload data]
  /\ packets c2 !! iid = None.
Proof.
  rewrite removePacket_run. intros Hrm Hin Hid Hrun. injection Hrm as <-.
  match type of Hrun with loop ?c1 = _ =>
    destruct (loop_cases c1) as
      [(Hin' & _)
      |[(data' & Hin' & Hp & s & tr & Hrun' & Hw & Hev)
       |(data' & p & s & e & Hin' & Hp & Hrun')]] end; [congruence | |].
  - assert (data' = data) as -> by congruence.
    rewrite Hrun' in Hrun. injection Hrun as <- <-.
    cbn [errno trace packets].
    rewrite writes_of_app, events_of_app, Hw, Hev, app_nil_r.
    split; [done|]. split; [done|]. split; [done|]. split; [done|].
    apply lookup_delete_eq.
  - assert (data' = data) as -> by congruence.
    cbn [packets] in Hp. by rewrite Hid, lookup_delete_eq in Hp.
Qed.

End Coms.

Arguments Coms : clear implicits.

(** * A concrete handler and transport *)

Module Demo.

(** Sample values for the two constants the sources at hand do not define. *)
Definition BOWLER_ERROR : Z := -1.
Definition SERVER_MANAGEMENT_PACKET_ID : Z := 1.

(** A handler that doubles the first payload byte (as an 8-bit value),
    counts its invocations and returns a fixed value. *)
Record DemoPacket : Type := mkDemoPacket {
  demo_id : Z;
  demo_reliable : bool;
  demo_result : Z;
  demo_calls : nat
}.

Definition demo_event (p : DemoPacket) (e : Z) (payload : list Z)
    : DemoPacket * Z * list Z * Z :=
  (mkDemoPacket (demo_id p) (demo_reliable p) (demo_result p) (S (demo_calls p)),
   e,
   match payload with
   | b :: rest => (2 * b) mod 256 :: rest
   | [] => []
   end,
   demo_result p).

Global Instance DemoPacket_Packet : Packet DemoPacket :=
  {| getId := demo_id; isReliable := demo_reliable; event := demo_event |}.

(** A transport with scripted answers: what the readiness check and the
    read store in [errno] and return, and whether a write succeeds.  It
    keeps the frames it was given. *)
Record DemoServer : Type := mkDemoServer {
  demo_peek : Z * Z * bool;
  demo_read : Z * Z * list Z;
  demo_write_ok : bool;
  demo_sent : list (list Z)
}.

Global Instance DemoServer_BowlerServer : BowlerServer DemoServer :=
  {| isDataAvailable := fun s _ =>
       let '(e, r, b) := demo_peek s in (s, e, r, b);
     read := fun s _ =>
       let '(e, r, d) := demo_read s in (s, e, r, d);
     write := fun s e d =>
       (mkDemoServer (demo_peek s) (demo_read s) (demo_write_ok s) (demo_sent s ++ [d]),
        (if demo_write_ok s then e else 5),
        (if demo_write_ok s then 1 else BOWLER_ERROR)) |}.

Definition h5 : DemoPacket := mkDemoPacket 5 true 1 0.
Definition h7 : DemoPacket := mkDemoPacket 7 false 1 0.
Definition h9 : DemoPacket := mkDemoPacket 9 true 1 0.
Definition management : DemoPacket :=
  mkDemoPacket SERVER_MANAGEMENT_PACKET_ID true 2 0.

(** Frames of eight bytes: identifier, sequence, acknowledgment, payload. *)
Definition frame_seq0 : list Z := [5; 0; 0; 3; 0; 0; 0; 0].
Definition frame_seq1 : list Z := [5; 1; 0; 3; 0; 0; 0; 0].
Definition frame_seq7 : list Z := [5; 7; 0; 3; 0; 0; 0; 0].
Definition frame_unknown : list Z := [42; 1; 1; 3; 4; 5; 6; 7].
Definition frame_disconnect : list Z := [1; 0; 0; 3; 0; 0; 0; 0].

Definition receiving (d : list Z) : DemoServer :=
  mkDemoServer (0, 1, true) (0, 1, d) true [].
Definition read_failing : DemoServer :=
  mkDemoServer (0, 1, true) (5, BOWLER_ERROR, []) true [].
Definition peek_failing : DemoServer :=
  mkDemoServer (5, BOWLER_ERROR, false) (0, 1, []) true [].

(** The object with [h5] and the management handler registered, both
    channels in state [st], and the given queue of factories. *)
Definition coms_with (st : states_t) (srv : DemoServer)
    (queue : list (unit -> DemoPacket)) : Coms DemoPacket DemoServer :=
  mkComs srv {[ 1 := management; 5 := h5 ]} {[ 1 := st; 5 := st ]}
         queue 0 [].

Definition coms_in (st : states_t) (srv : DemoServer) : Coms DemoPacket DemoServer :=
  coms_with st srv [].

Definition handle (st : states_t) (ipacket : Z * DemoPacket) (d : list Z)
    : list Z * Coms DemoPacket DemoServer :=
  handlePacketReliable BOWLER_ERROR SERVER_MANAGEMENT_PACKET_ID ipacket d
    (coms_in st (receiving d)).

Definition iterate (c : Coms DemoPacket DemoServer) : Z * Coms DemoPacket DemoServer :=
  loop BOWLER_ERROR SERVER_MANAGEMENT_PACKET_ID c.

Definition drain (c : Coms DemoPacket DemoServer) : Z * Coms DemoPacket DemoServer :=
  addEnsuredPackets BOWLER_ERROR c.

Definition make (p : DemoPacket) : unit -> DemoPacket := fun _ => p.

Lemma frame_has_header (a b x p1 p2 p3 p4 p5 : Z) :
  (HEADER_LENGTH <= length [a; b; x; p1; p2; p3; p4; p5])%nat.
Proof. unfold HEADER_LENGTH. cbn. lia. Qed.

(** ** The reliable transport on the sample frames *)

Lemma C1_witness :
  events_of (trace (snd (handle waitForZero (5, h5) frame_seq0)))
    = [(5, [3; 0; 0; 0; 0])]
  /\ fst (handle waitForZero (5, h5) frame_seq0) = [5; 0; 0; 6; 0; 0; 0; 0]
  /\ writes_of (trace (snd (handle waitForZero (5, h5) frame_seq0)))
    = [[5; 0; 0; 6; 0; 0; 0; 0]]
  /\ reliableState (snd (handle waitForZero (5, h5) frame_seq0)) !! 5
    = Some waitForOne.
Proof.
  destruct (C1_wait_zero_accepts_seq_zero (PktOps := DemoPacket_Packet)
              (SrvOps := DemoServer_BowlerServer) BOWLER_ERROR SERVER_MANAGEMENT_PACKET_ID
              (coms_in waitForZero (receiving frame_seq0))
              (snd (handle waitForZero (5, h5) frame_seq0))
              5 h5 (mkDemoPacket 5 true 1 1) frame_seq0 [6; 0; 0; 0; 0]
              (fst (handle waitForZero (5, h5) frame_seq0)) 0 1
              eq_refl eq_refl eq_refl (frame_has_header _ _ _ _ _ _ _ _)
              eq_refl eq_refl eq_refl)
    as (H1 & H2 & _ & H4 & _ & H6 & _).
  split; [exact H1|]. split; [exact H2|]. split; [exact H4|].
  apply H6. intros [Hid _]. discriminate Hid.
Defined.

(** The server management channel stays in [waitForZero] when its handler
    returns 2. *)
Example management_reset_keeps_waitForZero :
  reliableState (snd (handle waitForZero (1, management) frame_disconnect)) !! 1
    = Some waitForZero
  /\ fst (handle waitForZero (1, management) frame_disconnect)
    = [1; 0; 0; 6; 0; 0; 0; 0].
Proof. split; reflexivity. Qed.

Lemma C2_witness :
  events_of (trace (snd (handle waitForZero (5, h5) frame_seq1))) = []
  /\ fst (handle waitForZero (5, h5) frame_seq1) = [5; 1; 1; 0; 0; 0; 0; 0]
  /\ writes_of (trace (snd (handle waitForZero (5, h5) frame_seq1)))
    = [[5; 1; 1; 0; 0; 0; 0; 0]]
  /\ reliableState (snd (handle waitForZero (5, h5) frame_seq1)) !! 5
    = Some waitForZero.
Proof.
  destruct (C2_wrong_parity_is_acked_not_handled (PktOps := DemoPacket_Packet)
              (SrvOps := DemoServer_BowlerServer) BOWLER_ERROR
              SERVER_MANAGEMENT_PACKET_ID
              (coms_in waitForZero (receiving frame_seq1))
              (snd (handle waitForZero (5, h5) frame_seq1))
              5 h5 frame_seq1 (fst (handle waitForZero (5, h5) frame_seq1))
              waitForZero
              eq_refl eq_refl eq_refl (frame_has_header _ _ _ _ _ _ _ _)
              (or_introl (conj eq_refl eq_refl)) eq_refl)
    as (H1 & _ & _ & _ & _ & H6 & H7 & _).
  split; [exact H1|]. split; [reflexivity|]. split; [exact H6|].
  rewrite H7. reflexivity.
Defined.

Definition frame_disconnect_seq1 : list Z := [1; 1; 0; 3; 0; 0; 0; 0].

Lemma C3_witness :
  events_of (trace (snd (handle waitForOne (1, management) frame_disconnect_seq1)))
    = [(1, [3; 0; 0; 0; 0])]
  /\ getAckNum (fst (handle waitForOne (1, management) frame_disconnect_seq1)) = 1
  /\ reliableState (snd (handle waitForOne (1, management) frame_disconnect_seq1)) !! 1
    = Some waitForZero.
Proof.
  destruct (C3_wait_one_accepts_seq_one (PktOps := DemoPacket_Packet)
              (SrvOps := DemoServer_BowlerServer) BOWLER_ERROR SERVER_MANAGEMENT_PACKET_ID
              (coms_in waitForOne (receiving frame_disconnect_seq1))
              (snd (handle waitForOne (1, management) frame_disconnect_seq1))
              1 management (mkDemoPacket 1 true 2 1) frame_disconnect_seq1
              [6; 0; 0; 0; 0]
              (fst (handle waitForOne (1, management) frame_disconnect_seq1)) 0 2
              eq_refl eq_refl eq_refl (frame_has_header _ _ _ _ _ _ _ _)
              eq_refl eq_refl eq_refl)
    as (H1 & _ & H3 & _ & H5 & _).
  exact (conj H1 (conj H3 H5)).
Defined.

Lemma C9_witness :
  getAckNum (fst (handle waitForZero (5, h5) frame_seq7)) = 1
  /\ fst (handle waitForZero (5, h5) frame_seq7) = [5; 7; 1; 0; 0; 0; 0; 0]
  /\ events_of (trace (snd (handle waitForZero (5, h5) frame_seq7))) = []
  /\ reliableState (snd (handle waitForZero (5, h5) frame_seq7))
     = reliableState (coms_in waitForZero (receiving frame_seq7)).
Proof.
  destruct (C9_only_exact_sequence_number_accepted (PktOps := DemoPacket_Packet)
              (SrvOps := DemoServer_BowlerServer) BOWLER_ERROR
              SERVER_MANAGEMENT_PACKET_ID
              (coms_in waitForZero (receiving frame_seq7))
              (snd (handle waitForZero (5, h5) frame_seq7))
              5 h5 frame_seq7 (fst (handle waitForZero (5, h5) frame_seq7))
              waitForZero
              eq_refl eq_refl eq_refl (frame_has_header _ _ _ _ _ _ _ _)
              ltac:(discriminate) eq_refl)
    as (H1 & _ & _ & H4 & _ & H6).
  split; [exact H1|]. split; [reflexivity|]. split; [exact H4 | exact H6].
Defined.

(** ** The registry on the sample handlers *)

Definition idle : DemoServer := mkDemoServer (0, 1, false) (0, 1, []) true [].

Lemma C8_witness :
  (fst (addPacket BOWLER_ERROR (mkDemoPacket 5 false 1 0) (coms_in waitForOne idle))
     = BOWLER_ERROR
   /\ packets (snd (addPacket BOWLER_ERROR (mkDemoPacket 5 false 1 0)
                      (coms_in waitForOne idle))) !! 5 = Some h5
   /\ reliableState (snd (addPacket BOWLER_ERROR (mkDemoPacket 5 false 1 0)
                            (coms_in waitForOne idle)))
      = reliableState (coms_in waitForOne idle))
  /\ (fst (addPacket BOWLER_ERROR h9 (coms_in waitForOne idle)) = 1
      /\ packets (snd (addPacket BOWLER_ERROR h9 (coms_in waitForOne idle))) !! 9
         = Some h9
      /\ reliableState (snd (addPacket BOWLER_ERROR h9 (coms_in waitForOne idle))) !! 9
         = Some waitForZero).
Proof.
  split.
  - destruct (C8_addPacket_rejects_used_id (PktOps := DemoPacket_Packet)
                BOWLER_ERROR (coms_in waitForOne idle)
                (snd (addPacket BOWLER_ERROR (mkDemoPacket 5 false 1 0)
                        (coms_in waitForOne idle)))
                (mkDemoPacket 5 false 1 0) BOWLER_ERROR) as [Hused _];
      [reflexivity|].
    destruct (Hused h5 eq_refl) as (H1 & _ & _ & H4 & H5).
    exact (conj H1 (conj H5 H4)).
  - destruct (C8_addPacket_rejects_used_id (PktOps := DemoPacket_Packet)
                BOWLER_ERROR (coms_in waitForOne idle)
                (snd (addPacket BOWLER_ERROR h9 (coms_in waitForOne idle)))
                h9 1) as [_ Hfree]; [reflexivity|].
    destruct (Hfree eq_refl) as (H1 & _ & H3 & H4 & _).
    destruct (H4 eq_refl) as [_ H5].
    exact (conj H1 (conj H3 H5)).
Defined.

(** A drain of three factories whose second one collides: the first
    handler is registered, the third factory is never run. *)
Definition colliding_queue : list (unit -> DemoPacket) := [make h9; make h5; make h7].

Lemma C7_witness :
  fst (drain (coms_with waitForZero idle colliding_queue)) = BOWLER_ERROR
  /\ factories_of (trace (snd (drain (coms_with waitForZero idle colliding_queue))))
     = [0%nat; 1%nat]
  /\ packets (snd (drain (coms_with waitForZero idle colliding_queue))) !! 9 = Some h9
  /\ packets (snd (drain (coms_with waitForZero idle colliding_queue))) !! 7 = None.
Proof.
  destruct (C7_drain_stops_at_first_collision (PktOps := DemoPacket_Packet)
              BOWLER_ERROR (coms_with waitForZero idle colliding_queue)
              (snd (drain (coms_with waitForZero idle colliding_queue)))
              [make h9] [make h7] (make h5) BOWLER_ERROR)
    as (H1 & _ & H3 & _ & _ & H6 & H7 & _).
  - discriminate.
  - reflexivity.
  - apply NoDup_singleton.
  - intros g Hg. apply list_elem_of_singleton in Hg. subst g. reflexivity.
  - left. exists h5. reflexivity.
  - reflexivity.
  - split; [reflexivity|]. split; [exact H3|].
    split; [apply (H6 (make h9)), list_elem_of_singleton; reflexivity|].
    rewrite (H7 7); [reflexivity|].
    intros Hin. apply list_elem_of_singleton in Hin. discriminate Hin.
Defined.

(** A queue that registers completely, drained twice. *)
Definition fresh_queue : list (unit -> DemoPacket) := [make h9; make h7].

Lemma C10_witness :
  fst (drain (coms_with waitForZero idle fresh_queue)) = 1
  /\ ensuredPackets (snd (drain (coms_with waitForZero idle fresh_queue))) = fresh_queue
  /\ fst (drain (snd (drain (coms_with waitForZero idle fresh_queue)))) = BOWLER_ERROR
  /\ factories_of (trace (snd (drain (snd (drain (coms_with waitForZero idle fresh_queue))))))
     = [0%nat; 1%nat; 0%nat].
Proof.
  destruct (C10_second_drain_fails_at_first_factory (PktOps := DemoPacket_Packet)
              BOWLER_ERROR (coms_with waitForZero idle fresh_queue)
              (snd (drain (coms_with waitForZero idle fresh_queue)))
              (snd (drain (snd (drain (coms_with waitForZero idle fresh_queue)))))
              1 BOWLER_ERROR)
    as (H1 & _ & H3 & _ & H5 & _).
  - reflexivity.
  - intros Heq. apply (f_equal (fun m => m !! 9)) in Heq. discriminate Heq.
  - reflexivity.
  - split; [reflexivity|]. split; [exact H1|]. split; [reflexivity | exact H5].
Defined.

(** ** Removing a handler *)

(** [h5] is registered through [addPacket], one frame with sequence number
    zero is dispatched to it, then it is removed. *)
Definition registered : Coms DemoPacket DemoServer :=
  snd (addPacket BOWLER_ERROR h5 (mkComs (receiving frame_seq0) ∅ ∅ [] 0 [])).
Definition served : Coms DemoPacket DemoServer := snd (iterate registered).
Definition removed : Coms DemoPacket DemoServer := snd (removePacket 5 served).

(** The claim read literally fails here: after [removePacket 5] the registry
    has no entry for 5, but the state table still has the channel state of
    identifier 5. *)
Lemma C4_counterexample :
  packets served !! 5 = Some (mkDemoPacket 5 true 1 1)
  /\ reliableState served !! 5 = Some waitForOne
  /\ packets removed !! 5 = None
  /\ reliableState removed !! 5 = Some waitForOne.
Proof. repeat split; reflexivity. Qed.

Lemma C4_witness :
  packets removed !! 5 = None
  /\ reliableState removed = reliableState served
  /\ snd (removePacket 9 served) = served.
Proof.
  destruct (C4_removePacket_keeps_state_table served removed 5 eq_refl)
    as (_ & H2 & _ & H4 & _).
  destruct (C4_removePacket_keeps_state_table served
              (snd (removePacket 9 served)) 9 eq_refl)
    as (_ & _ & _ & _ & H5).
  split; [exact H2|]. split; [exact H4|]. apply H5. reflexivity.
Defined.

(** ** One iteration of the loop *)

(** C5 on concrete failing inputs: the read (and, in the second object, the
    readiness check, with an [errno] that is not [EWOULDBLOCK]) returns
    [BOWLER_ERROR], and [loop] returns 1, which is not [BOWLER_ERROR] and is
    what an iteration that found no data returns, against the documented
    return value of [loop]. *)
Lemma C5_counterexample :
  read read_failing 0 = (read_failing, 5, BOWLER_ERROR, [])
  /\ fst (iterate (coms_in waitForZero read_failing)) = 1
  /\ isDataAvailable peek_failing 0 = (peek_failing, 5, BOWLER_ERROR, false)
  /\ 5 <> EWOULDBLOCK
  /\ fst (iterate (coms_in waitForZero peek_failing)) = 1
  /\ fst (iterate (coms_in waitForZero idle)) = 1
  /\ 1 <> BOWLER_ERROR.
Proof. repeat split; try reflexivity; discriminate. Qed.

Lemma C5_witness :
  (fst (iterate (coms_in waitForZero read_failing)) = 1
   /\ writes_of (trace (snd (iterate (coms_in waitForZero read_failing)))) = []
   /\ logs_of (trace (snd (iterate (coms_in waitForZero read_failing))))
      = [LogReadError 5])
  /\ (fst (iterate (coms_in waitForZero peek_failing)) = 1
      /\ writes_of (trace (snd (iterate (coms_in waitForZero peek_failing)))) = []
      /\ logs_of (trace (snd (iterate (coms_in waitForZero peek_failing))))
         = [LogPeekError 5]).
Proof.
  split.
  - destruct (C5_transport_failure_logged_loop_returns_1
                (PktOps := DemoPacket_Packet) (SrvOps := DemoServer_BowlerServer)
                BOWLER_ERROR SERVER_MANAGEMENT_PACKET_ID
                (coms_in waitForZero read_failing)
                (snd (iterate (coms_in waitForZero read_failing)))
                read_failing 0 1 true 1)
      as (H1 & H2 & _ & _ & H5 & _).
    + reflexivity.
    + right. split; [discriminate|]. split; [reflexivity|].
      exists read_failing, 5, []. reflexivity.
    + reflexivity.
    + split; [exact H1|]. split; [exact H2|]. apply H5. discriminate.
  - destruct (C5_transport_failure_logged_loop_returns_1
                (PktOps := DemoPacket_Packet) (SrvOps := DemoServer_BowlerServer)
                BOWLER_ERROR SERVER_MANAGEMENT_PACKET_ID
                (coms_in waitForZero peek_failing)
                (snd (iterate (coms_in waitForZero peek_failing)))
                peek_failing 5 BOWLER_ERROR false 1)
      as (H1 & H2 & _ & H4 & _).
    + reflexivity.
    + left. split; [reflexivity | discriminate].
    + reflexivity.
    + split; [exact H1|]. split; [exact H2|]. apply H4. reflexivity.
Defined.

Lemma C6_witness :
  fst (iterate (coms_in waitForZero (receiving frame_unknown))) = BOWLER_ERROR
  /\ errno (snd (iterate (coms_in waitForZero (receiving frame_unknown)))) = ENODEV
  /\ writes_of (trace (snd (iterate (coms_in waitForZero (receiving frame_unknown)))))
     = [[42; 1; 1; 0; 0; 0; 0; 0]]
  /\ events_of (trace (snd (iterate (coms_in waitForZero (receiving frame_unknown)))))
     = [].
Proof.
  destruct (C6_unknown_id_zeroed_echo_and_error
              (PktOps := DemoPacket_Packet) (SrvOps := DemoServer_BowlerServer)
              BOWLER_ERROR SERVER_MANAGEMENT_PACKET_ID
              (coms_in waitForZero (receiving frame_unknown))
              (snd (iterate (coms_in waitForZero (receiving frame_unknown))))
              (receiving frame_unknown) (receiving frame_unknown)
              0 1 0 1 BOWLER_ERROR frame_unknown)
    as (H1 & H2 & H3 & _ & _ & _ & _ & _ & _ & H10 & _).
  - reflexivity.
  - discriminate.
  - reflexivity.
  - discriminate.
  - reflexivity.
  - reflexivity.
  - split; [reflexivity|]. split; [exact H2|]. split; [exact H3 | exact H10].
Defined.

(** ** The end-to-end scenario *)

(** Frames of eight bytes, a reliable handler with identifier 5 that doubles
    the first payload byte.  The frame with sequence number zero is handled
    and acknowledged with 0; the same frame again finds the channel waiting
    for one, so it is answered with a zero payload and acknowledgment
    number 0 (the sequence number it carries), and the handler has still run
    once. *)
Example end_to_end_first_delivery :
  fst (iterate registered) = 1
  /\ writes_of (trace served) = [[5; 0; 0; 6; 0; 0; 0; 0]]
  /\ events_of (trace served) = [(5, [3; 0; 0; 0; 0])]
  /\ reliableState served !! 5 = Some waitForOne.
Proof. repeat split; reflexivity. Qed.

Example end_to_end_second_delivery :
  fst (iterate served) = 1
  /\ writes_of (trace (snd (iterate served)))
     = [[5; 0; 0; 6; 0; 0; 0; 0]; [5; 0; 0; 0; 0; 0; 0; 0]]
  /\ events_of (trace (snd (iterate served))) = [(5, [3; 0; 0; 0; 0])]
  /\ demo_calls <$> (packets (snd (iterate served)) !! 5) = Some 1%nat
  /\ reliableState (snd (iterate served)) !! 5 = Some waitForOne.
Proof. repeat split; reflexivity. Qed.

(** ** The remaining members on the sample handlers *)

Definition frame7 : list Z := [7; 0; 0; 3; 0; 0; 0; 0].
Definition frame9_seq0 : list Z := [9; 0; 0; 3; 0; 0; 0; 0].
Definition frame9_seq1 : list Z := [9; 1; 0; 3; 0; 0; 0; 0].

Definition would_block : DemoServer :=
  mkDemoServer (EWOULDBLOCK, BOWLER_ERROR, false) (0, 1, []) true [].

(** An object whose state table still has a state for identifier 9, which
    has no handler. *)
Definition stale9 (srv : DemoServer) : Coms DemoPacket DemoServer :=
  mkComs srv {[ 1 := management; 5 := h5 ]}
         {[ 1 := waitForZero; 5 := waitForZero; 9 := waitForOne ]} [] 0 [].

Definition construct : Coms DemoPacket DemoServer :=
  DefaultBowlerComs BOWLER_ERROR idle management 0.

Definition handle_in (c : Coms DemoPacket DemoServer) (ipacket : Z * DemoPacket)
    (d : list Z) : list Z * Coms DemoPacket DemoServer :=
  handlePacketReliable BOWLER_ERROR SERVER_MANAGEMENT_PACKET_ID ipacket d c.

Lemma X1_witness :
  events_of (trace (snd (handlePacketUnreliable BOWLER_ERROR (7, h7) frame7
                           (coms_in waitForZero (receiving frame7)))))
    = [(7, [3; 0; 0; 0; 0])]
  /\ writes_of (trace (snd (handlePacketUnreliable BOWLER_ERROR (7, h7) frame7
                              (coms_in waitForZero (receiving frame7)))))
    = [[7; 0; 0; 6; 0; 0; 0; 0]].
Proof.
  destruct (X1_unreliable_always_replies (PktOps := DemoPacket_Packet)
              (SrvOps := DemoServer_BowlerServer) BOWLER_ERROR
              (coms_in waitForZero (receiving frame7))
              (snd (handlePacketUnreliable BOWLER_ERROR (7, h7) frame7
                      (coms_in waitForZero (receiving frame7))))
              7 h7 (mkDemoPacket 7 false 1 1) frame7 [6; 0; 0; 0; 0]
              [7; 0; 0; 6; 0; 0; 0; 0] 0 1)
    as (H1 & H2 & _).
  - apply frame_has_header.
  - vm_compute. reflexivity.
  - vm_compute. reflexivity.
  - exact (conj H1 H2).
Defined.

Lemma X2_witness :
  is_Some (reliableState (snd (handle_in (coms_in waitForOne (receiving frame9_seq1))
                                 (9, h9) frame9_seq1)) !! 9)
  /\ fst (handle_in (coms_in waitForOne (receiving frame9_seq1)) (9, h9) frame9_seq1)
     = [9; 1; 1; 0; 0; 0; 0; 0].
Proof.
  destruct (X2_missing_state_is_wait_zero (PktOps := DemoPacket_Packet)
              (SrvOps := DemoServer_BowlerServer) BOWLER_ERROR
              SERVER_MANAGEMENT_PACKET_ID
              (coms_in waitForOne (receiving frame9_seq1))
              (snd (handle_in (coms_in waitForOne (receiving frame9_seq1))
                      (9, h9) frame9_seq1))
              9 h9 frame9_seq1
              (fst (handle_in (coms_in waitForOne (receiving frame9_seq1))
                      (9, h9) frame9_seq1)))
    as (_ & H2 & _ & H4).
  - vm_compute. reflexivity.
  - vm_compute. reflexivity.
  - split; [exact H2|]. destruct H4 as [H4 _]; [discriminate | exact H4].
Defined.

Lemma X3_witness :
  events_of (trace (snd (handle_in (snd (handle waitForZero (5, h5) frame_seq0))
                           (5, mkDemoPacket 5 true 1 1) frame_seq1)))
    = [(5, [3; 0; 0; 0; 0]); (5, [3; 0; 0; 0; 0])]
  /\ writes_of (trace (snd (handle_in (snd (handle waitForZero (5, h5) frame_seq0))
                              (5, mkDemoPacket 5 true 1 1) frame_seq1)))
    = [[5; 0; 0; 6; 0; 0; 0; 0]; [5; 1; 1; 6; 0; 0; 0; 0]]
  /\ reliableState (snd (handle_in (snd (handle waitForZero (5, h5) frame_seq0))
                           (5, mkDemoPacket 5 true 1 1) frame_seq1)) !! 5
    = Some waitForZero.
Proof.
  destruct (X3_alternation_round_trip (PktOps := DemoPacket_Packet)
              (SrvOps := DemoServer_BowlerServer) BOWLER_ERROR
              SERVER_MANAGEMENT_PACKET_ID
              (coms_in waitForZero (receiving frame_seq0))
              (snd (handle waitForZero (5, h5) frame_seq0))
              (snd (handle_in (snd (handle waitForZero (5, h5) frame_seq0))
                      (5, mkDemoPacket 5 true 1 1) frame_seq1))
              5 h5 (mkDemoPacket 5 true 1 1) frame_seq0 frame_seq1
              [5; 0; 0; 6; 0; 0; 0; 0] [5; 1; 1; 6; 0; 0; 0; 0]
              [6; 0; 0; 0; 0] 0 1)
    as (_ & _ & H3 & H4 & _ & _ & H7).
  - vm_compute. reflexivity.
  - apply frame_has_header.
  - apply frame_has_header.
  - vm_compute. reflexivity.
  - vm_compute. reflexivity.
  - vm_compute. reflexivity.
  - intros [Hid _]. discriminate Hid.
  - vm_compute. reflexivity.
  - vm_compute. reflexivity.
  - exact (conj H3 (conj H4 H7)).
Defined.

Lemma X4_witness :
  events_of (trace (snd (handle_in (snd (handle waitForZero (5, h5) frame_seq0))
                           (5, mkDemoPacket 5 true 1 1) frame_seq0)))
    = [(5, [3; 0; 0; 0; 0])]
  /\ writes_of (trace (snd (handle_in (snd (handle waitForZero (5, h5) frame_seq0))
                              (5, mkDemoPacket 5 true 1 1) frame_seq0)))
    = [[5; 0; 0; 6; 0; 0; 0; 0]; [5; 0; 0; 0; 0; 0; 0; 0]].
Proof.
  destruct (X4_redelivery_is_suppressed (PktOps := DemoPacket_Packet)
              (SrvOps := DemoServer_BowlerServer) BOWLER_ERROR
              SERVER_MANAGEMENT_PACKET_ID
              (coms_in waitForZero (receiving frame_seq0))
              (snd (handle waitForZero (5, h5) frame_seq0))
              (snd (handle_in (snd (handle waitForZero (5, h5) frame_seq0))
                      (5, mkDemoPacket 5 true 1 1) frame_seq0))
              5 h5 (mkDemoPacket 5 true 1 1) frame_seq0
              [5; 0; 0; 6; 0; 0; 0; 0] [5; 0; 0; 0; 0; 0; 0; 0]
              [6; 0; 0; 0; 0] 0 1 waitForZero)
    as (H1 & H2 & _).
  - vm_compute. reflexivity.
  - apply frame_has_header.
  - vm_compute. reflexivity.
  - vm_compute. reflexivity.
  - intros (_ & Hid & _). discriminate Hid.
  - vm_compute. reflexivity.
  - vm_compute. reflexivity.
  - exact (conj H1 H2).
Defined.

Lemma X5_witness :
  events_of (trace (snd (handle_in
                           (snd (handle waitForZero (1, management) frame_disconnect))
                           (1, mkDemoPacket 1 true 2 1) frame_disconnect)))
    = [(1, [3; 0; 0; 0; 0]); (1, [3; 0; 0; 0; 0])]
  /\ getAckNum (fst (handle_in
                       (snd (handle waitForZero (1, management) frame_disconnect))
                       (1, mkDemoPacket 1 true 2 1) frame_disconnect)) = 0.
Proof.
  destruct (X5_after_disconnection_zero_is_accepted_again
              (PktOps := DemoPacket_Packet) (SrvOps := DemoServer_BowlerServer)
              BOWLER_ERROR SERVER_MANAGEMENT_PACKET_ID
              (coms_in waitForZero (receiving frame_disconnect))
              (snd (handle waitForZero (1, management) frame_disconnect))
              (snd (handle_in
                      (snd (handle waitForZero (1, management) frame_disconnect))
                      (1, mkDemoPacket 1 true 2 1) frame_disconnect))
              management (mkDemoPacket 1 true 2 1) (mkDemoPacket 1 true 2 2)
              frame_disconnect frame_disconnect
              [1; 0; 0; 6; 0; 0; 0; 0]
              (fst (handle_in
                      (snd (handle waitForZero (1, management) frame_disconnect))
                      (1, mkDemoPacket 1 true 2 1) frame_disconnect))
              [6; 0; 0; 0; 0] [6; 0; 0; 0; 0] 0 0 2)
    as (_ & H2 & _ & H4).
  - vm_compute. reflexivity.
  - apply frame_has_header.
  - vm_compute. reflexivity.
  - vm_compute. reflexivity.
  - vm_compute. reflexivity.
  - vm_compute. reflexivity.
  - vm_compute. reflexivity.
  - vm_compute. reflexivity.
  - exact (conj H2 H4).
Defined.

Lemma X6_witness :
  fst (handleFrames BOWLER_ERROR SERVER_MANAGEMENT_PACKET_ID 5
         [frame_seq1; frame_seq7; frame_seq1]
         (coms_in waitForZero (receiving frame_seq1)))
    = [[5; 1; 1; 0; 0; 0; 0; 0]; [5; 7; 1; 0; 0; 0; 0; 0]; [5; 1; 1; 0; 0; 0; 0; 0]]
  /\ events_of (trace (snd (handleFrames BOWLER_ERROR SERVER_MANAGEMENT_PACKET_ID 5
                              [frame_seq1; frame_seq7; frame_seq1]
                              (coms_in waitForZero (receiving frame_seq1))))) = [].
Proof.
  destruct (X6_unexpected_frames_never_reach_handler
              (PktOps := DemoPacket_Packet) (SrvOps := DemoServer_BowlerServer)
              BOWLER_ERROR SERVER_MANAGEMENT_PACKET_ID
              [frame_seq1; frame_seq7; frame_seq1]
              (coms_in waitForZero (receiving frame_seq1))
              (snd (handleFrames BOWLER_ERROR SERVER_MANAGEMENT_PACKET_ID 5
                      [frame_seq1; frame_seq7; frame_seq1]
                      (coms_in waitForZero (receiving frame_seq1))))
              5 h5 waitForZero
              (fst (handleFrames BOWLER_ERROR SERVER_MANAGEMENT_PACKET_ID 5
                      [frame_seq1; frame_seq7; frame_seq1]
                      (coms_in waitForZero (receiving frame_seq1)))))
    as (H1 & H2 & _).
  - vm_compute. reflexivity.
  - vm_compute. reflexivity.
  - repeat constructor; discriminate.
  - vm_compute. reflexivity.
  - exact (conj H1 H2).
Defined.

Lemma X7_witness :
  iterate (coms_in waitForZero idle)
    = (1, mkComs idle (packets (coms_in waitForZero idle))
            (reliableState (coms_in waitForZero idle)) [] 0 [CallIsDataAvailable])
  /\ snd (iterate (coms_in waitForZero would_block))
     = mkComs would_block (packets (coms_in waitForZero idle))
         (reliableState (coms_in waitForZero idle)) [] EWOULDBLOCK
         [CallIsDataAvailable].
Proof.
  split.
  - apply (X7_no_data_iteration_is_silent (PktOps := DemoPacket_Packet)
             (SrvOps := DemoServer_BowlerServer) BOWLER_ERROR
             SERVER_MANAGEMENT_PACKET_ID (coms_in waitForZero idle) idle 0 1 false).
    + vm_compute. reflexivity.
    + right. split; [discriminate | reflexivity].
  - unfold iterate.
    rewrite (X7_no_data_iteration_is_silent (PktOps := DemoPacket_Packet)
               (SrvOps := DemoServer_BowlerServer) BOWLER_ERROR
               SERVER_MANAGEMENT_PACKET_ID (coms_in waitForZero would_block)
               would_block EWOULDBLOCK BOWLER_ERROR false).
    + reflexivity.
    + vm_compute. reflexivity.
    + left. split; reflexivity.
Defined.

Lemma X8_witness :
  fst (iterate (coms_in waitForZero (receiving frame_unknown))) = BOWLER_ERROR.
Proof.
  destruct (X8_loop_fails_only_on_unknown_id (PktOps := DemoPacket_Packet)
              (SrvOps := DemoServer_BowlerServer) BOWLER_ERROR
              SERVER_MANAGEMENT_PACKET_ID
              (coms_in waitForZero (receiving frame_unknown)))
    as [_ [_ Hback]].
  - discriminate.
  - apply Hback. exists frame_unknown. split; vm_compute; reflexivity.
Defined.

Lemma X9_witness :
  exists reply,
    writes_of (trace (snd (iterate (coms_in waitForZero (receiving frame_seq0)))))
      = [reply]
    /\ getPacketId reply = 5 /\ getSeqNum reply = 0.
Proof.
  destruct (X9_one_reply_per_frame (PktOps := DemoPacket_Packet)
              (SrvOps := DemoServer_BowlerServer) BOWLER_ERROR
              SERVER_MANAGEMENT_PACKET_ID
              (coms_in waitForZero (receiving frame_seq0))
              (snd (iterate (coms_in waitForZero (receiving frame_seq0))))
              frame_seq0 1)
    as (reply & H1 & H2 & H3 & _).
  - vm_compute. reflexivity.
  - apply frame_has_header.
  - vm_compute. reflexivity.
  - exists reply. exact (conj H1 (conj H2 H3)).
Defined.

Lemma X12_witness :
  fst (drain (coms_with waitForZero idle fresh_queue)) = 1
  /\ factories_of (trace (snd (drain (coms_with waitForZero idle fresh_queue))))
     = [0%nat; 1%nat]
  /\ packets (snd (drain (coms_with waitForZero idle fresh_queue))) !! 7 = Some h7
  /\ reliableState (snd (drain (coms_with waitForZero idle fresh_queue))) !! 9
     = Some waitForZero.
Proof.
  destruct (X12_drain_registers_all (PktOps := DemoPacket_Packet)
              BOWLER_ERROR (coms_with waitForZero idle fresh_queue)
              (snd (drain (coms_with waitForZero idle fresh_queue))) 1)
    as (_ & _ & H3 & _ & _ & H6 & H7 & _).
  - discriminate.
  - apply NoDup_cons. split.
    + intros Hin. apply list_elem_of_singleton in Hin. discriminate Hin.
    + apply NoDup_singleton.
  - intros g Hg. apply elem_of_cons in Hg as [-> | Hg]; [reflexivity|].
    apply list_elem_of_singleton in Hg. subst g. reflexivity.
  - vm_compute. reflexivity.
  - split; [vm_compute; reflexivity|]. split; [exact H3|]. split.
    + apply (H6 (make h7)). apply elem_of_cons. right.
      apply list_elem_of_singleton. reflexivity.
    + apply (H7 (make h9)); [|reflexivity]. apply elem_of_cons. by left.
Defined.

Lemma X13_witness :
  fst (addPacket BOWLER_ERROR h5 (snd (removePacket 5 (coms_in waitForOne idle)))) = 1
  /\ reliableState (snd (addPacket BOWLER_ERROR h5
                           (snd (removePacket 5 (coms_in waitForOne idle))))) !! 5
     = Some waitForZero.
Proof.
  destruct (X13_remove_then_add_replaces (PktOps := DemoPacket_Packet)
              BOWLER_ERROR (coms_in waitForOne idle)
              (snd (removePacket 5 (coms_in waitForOne idle)))
              (snd (addPacket BOWLER_ERROR h5
                      (snd (removePacket 5 (coms_in waitForOne idle)))))
              h5 1)
    as (_ & _ & H3 & _).
  - reflexivity.
  - vm_compute. reflexivity.
  - split; [vm_compute; reflexivity|]. apply H3. reflexivity.
Defined.

Lemma X14_witness :
  fst (drain (snd (addEnsuredPacket (make h9) (coms_in waitForZero idle))))
    = fst (addPacket BOWLER_ERROR h9 (coms_in waitForZero idle))
  /\ ensuredPackets (snd (drain (snd (addEnsuredPacket (make h9)
                                        (coms_in waitForZero idle)))))
     = [make h9].
Proof.
  destruct (X14_enqueue_then_drain_is_addPacket (PktOps := DemoPacket_Packet)
              BOWLER_ERROR (coms_in waitForZero idle) (make h9))
    as (H1 & _ & _ & _ & H5).
  - reflexivity.
  - exact (conj H1 H5).
Defined.

Lemma X15_witness :
  exists ids,
    getAllPacketIDs SERVER_MANAGEMENT_PACKET_ID (coms_in waitForZero idle)
      = (Some ids, coms_in waitForZero idle)
    /\ 5 ∈ ids /\ (1 ∉ ids).
Proof.
  destruct (X15_getAllPacketIDs_lists_user_ids SERVER_MANAGEMENT_PACKET_ID
              (coms_in waitForZero idle))
    as (ids & H1 & H2 & H3 & _).
  - intros Heq. apply (f_equal (fun m => m !! 5)) in Heq. discriminate Heq.
  - exists ids. split; [exact H1|]. split; [|exact H3].
    apply H2. split; [|discriminate]. exists h5. reflexivity.
Defined.

(** The list itself, for a registry with the identifiers 1, 5, 7 and 9. *)
Example getAllPacketIDs_ascending :
  fst (getAllPacketIDs SERVER_MANAGEMENT_PACKET_ID
         (snd (drain (coms_with waitForZero idle fresh_queue))))
  = Some [5; 7; 9].
Proof. vm_compute. reflexivity. Qed.

Lemma X17_witness :
  fst (getAllPacketIDs SERVER_MANAGEMENT_PACKET_ID construct) = Some []
  /\ fst (addPacket BOWLER_ERROR (mkDemoPacket 1 false 1 0) construct) = BOWLER_ERROR
  /\ reliableState construct !! 1 = Some waitForZero.
Proof.
  destruct (X17_constructor_registers_management (PktOps := DemoPacket_Packet)
              BOWLER_ERROR SERVER_MANAGEMENT_PACKET_ID idle management 0)
    as (_ & H2 & _ & H4 & H5 & _).
  - reflexivity.
  - split; [exact H4|]. split; [apply H5; reflexivity | apply H2; reflexivity].
Defined.

Definition with_h9 : Coms DemoPacket DemoServer :=
  snd (addPacket BOWLER_ERROR h9 (stale9 (receiving frame9_seq0))).

Lemma X18_witness :
  reliableState (stale9 (receiving frame9_seq0)) !! 9 = Some waitForOne
  /\ events_of (trace (snd (iterate with_h9))) = [(9, [3; 0; 0; 0; 0])]
  /\ exists reply, writes_of (trace (snd (iterate with_h9))) = [reply]
       /\ getAckNum reply = 0.
Proof.
  destruct (X18_fresh_reliable_channel_expects_zero (PktOps := DemoPacket_Packet)
              (SrvOps := DemoServer_BowlerServer) BOWLER_ERROR
              SERVER_MANAGEMENT_PACKET_ID
              (stale9 (receiving frame9_seq0)) with_h9 (snd (iterate with_h9))
              h9 frame9_seq0 1 1)
    as (_ & _ & Hzero & _).
  - reflexivity.
  - reflexivity.
  - vm_compute. reflexivity.
  - vm_compute. reflexivity.
  - reflexivity.
  - apply frame_has_header.
  - vm_compute. reflexivity.
  - split; [reflexivity|]. destruct Hzero as [Hev Hw]; [reflexivity|].
    split; [exact Hev | exact Hw].
Defined.

Lemma X19_witness :
  fst (iterate (snd (removePacket 5 (coms_in waitForZero (receiving frame_seq0)))))
    = BOWLER_ERROR
  /\ writes_of (trace (snd (iterate (snd (removePacket 5
                                            (coms_in waitForZero
                                               (receiving frame_seq0)))))))
     = [[5; 0; 0; 0; 0; 0; 0; 0]].
Proof.
  destruct (X19_removed_handler_is_unknown (PktOps := DemoPacket_Packet)
              (SrvOps := DemoServer_BowlerServer) BOWLER_ERROR
              SERVER_MANAGEMENT_PACKET_ID
              (coms_in waitForZero (receiving frame_seq0))
              (snd (removePacket 5 (coms_in waitForZero (receiving frame_seq0))))
              (snd (iterate (snd (removePacket 5
                                    (coms_in waitForZero (receiving frame_seq0))))))
              5 BOWLER_ERROR frame_seq0)
    as (_ & _ & _ & H4 & _).
  - reflexivity.
  - vm_compute. reflexivity.
  - reflexivity.
  - vm_compute. reflexivity.
  - split; [vm_compute; reflexivity | exact H4].
Defined.

Lemma X16_witness :
  packets (snd (removePacket 1 construct)) = ∅
  /\ fst (getAllPacketIDs SERVER_MANAGEMENT_PACKET_ID (snd (removePacket 1 construct)))
     = None.
Proof.
  apply (X16_getAllPacketIDs_after_last_removal SERVER_MANAGEMENT_PACKET_ID
           construct (snd (removePacket 1 construct)) 1 management);
    reflexivity.
Defined.

Lemma X10_witness :
  packets (snd (iterate (coms_in waitForZero (receiving frame_seq1))))
    = packets (coms_in waitForZero (receiving frame_seq1))
  /\ reliableState (snd (iterate (coms_in waitForZero (receiving frame_seq1)))) !! 5
     = Some waitForZero.
Proof.
  destruct (X10_iteration_without_handler_keeps_tables
              (PktOps := DemoPacket_Packet) (SrvOps := DemoServer_BowlerServer)
              BOWLER_ERROR SERVER_MANAGEMENT_PACKET_ID
              (coms_in waitForZero (receiving frame_seq1))
              (snd (iterate (coms_in waitForZero (receiving frame_seq1)))) 1)
    as (H1 & _ & H3 & _).
  - vm_compute. reflexivity.
  - vm_compute. reflexivity.
  - split; [exact H1|]. rewrite H3; [reflexivity|]. exists waitForZero. reflexivity.
Defined.

End Demo.
